(** * Reolink firmware checker: a shallow embedding and its properties

    The development follows [reolink_firmware_check.py]:

    - [Py]       the fragment of Python's dynamic values and built-in
                 operations the checker relies on (truthiness, [in],
                 subscripting, [dict.get], [max] with a key, exceptions);
    - [Re]       the regular expressions of the scraping fall-backs and
                 [re.findall];
    - [Http]     the [requests] session as a state-and-exception monad over
                 a network oracle, with the trace of requests issued;
    - [Checker]  the methods of [ReolinkFirmwareChecker] and [main];
    - [Packaging] the version parser and order the comparator relies on;
    - [Spec]     the vocabulary of the statements;
    - [Samples]  the inputs of the repository's tests and a few more.

    Text is modelled by [string] (sequences of 8-bit characters).  Case
    mapping and the character classes of the regular expressions are those
    of ASCII; characters above 127 are carried through unchanged.  JSON
    numbers are integers.  Console output is not modelled. *)

From Stdlib Require Import ZArith List String Ascii Bool Lia.
Import ListNotations.

Set Warnings "-register-all".

Local Open Scope string_scope.
Local Open Scope list_scope.
Local Open Scope Z_scope.

(* ================================================================= *)
(** ** Python values, exceptions and built-ins *)

Module Py.

(** What [json.loads] can produce, which is also what the methods of the
    checker pass around ([PNone] is Python's [None]).  A [dict] is kept
    as an association list in insertion order; the first binding of a
    key is the one seen by look-ups. *)
Inductive pyval : Type :=
| PNone
| PBool (b : bool)
| PInt (n : Z)
| PStr (s : string)
| PList (l : list pyval)
| PDict (d : list (string * pyval)).

(** The exceptions the modelled code can meet.  [AttributeError] keeps
    the type and attribute names because [compare_versions] prints them. *)
Inductive exn : Type :=
| AttributeError (ty attr : string)
| TypeError
| KeyError
| IndexError
| ValueError
| EOFError
| RequestException.

Inductive result (A : Type) : Type :=
| Ok (a : A)
| Raise (e : exn).
Arguments Ok {A} a.
Arguments Raise {A} e.

Definition rbind {A B} (m : result A) (f : A -> result B) : result B :=
  match m with
  | Ok a => f a
  | Raise e => Raise e
  end.

Declare Scope py_scope.
Delimit Scope py_scope with py.
Notation "x <- m ;; k" := (rbind m (fun x => k))
  (at level 100, m at next level, right associativity) : py_scope.

(** [str(e)] for the exception that reaches a message. *)
Definition exn_str (e : exn) : string :=
  match e with
  | AttributeError ty attr =>
      "'" ++ ty ++ "' object has no attribute '" ++ attr ++ "'"
  | TypeError => "TypeError"
  | KeyError => "KeyError"
  | IndexError => "IndexError"
  | ValueError => "ValueError"
  | EOFError => "EOFError"
  | RequestException => "RequestException"
  end.

Definition type_name (v : pyval) : string :=
  match v with
  | PNone => "NoneType"
  | PBool _ => "bool"
  | PInt _ => "int"
  | PStr _ => "str"
  | PList _ => "list"
  | PDict _ => "dict"
  end.

(** [bool(v)] *)
Definition truthy (v : pyval) : bool :=
  match v with
  | PNone => false
  | PBool b => b
  | PInt n => negb (n =? 0)
  | PStr s => negb (String.eqb s "")
  | PList l => match l with [] => false | _ => true end
  | PDict d => match d with [] => false | _ => true end
  end.

Fixpoint dict_get (k : string) (d : list (string * pyval)) : option pyval :=
  match d with
  | [] => None
  | (k', v) :: d' => if String.eqb k k' then Some v else dict_get k d'
  end.

Definition dict_keys (d : list (string * pyval)) : list string :=
  nodup string_dec (map fst d).

(** [bool] is a subclass of [int]. *)
Definition as_int (v : pyval) : option Z :=
  match v with
  | PInt n => Some n
  | PBool b => Some (if b then 1 else 0)
  | _ => None
  end.

(** [a == b] *)
Fixpoint py_eq (a b : pyval) : bool :=
  match a, b with
  | PNone, PNone => true
  | PBool x, PBool y => Bool.eqb x y
  | PBool x, PInt y => (if x then 1 else 0) =? y
  | PInt x, PBool y => x =? (if y then 1 else 0)
  | PInt x, PInt y => x =? y
  | PStr s, PStr t => String.eqb s t
  | PList l, PList m =>
      (fix eq_items (l m : list pyval) : bool :=
         match l, m with
         | [], [] => true
         | x :: l', y :: m' => py_eq x y && eq_items l' m'
         | _, _ => false
         end) l m
  | PDict d, PDict e =>
      (Nat.eqb (List.length (dict_keys d)) (List.length (dict_keys e)))
      && (fix eq_bindings (d' : list (string * pyval)) : bool :=
            match d' with
            | [] => true
            | (k, v) :: d'' =>
                match dict_get k e with
                | Some w => py_eq v w && eq_bindings d''
                | None => false
                end
            end) d
  | _, _ => false
  end.

(** [a > b]: numbers by value, strings and lists lexicographically,
    [TypeError] for every other pair. *)
Fixpoint py_gt (a b : pyval) : result bool :=
  match a, b with
  | PStr s, PStr t => Ok (String.ltb t s)
  | PList l, PList m =>
      (fix gt_items (l m : list pyval) : result bool :=
         match l, m with
         | x :: l', y :: m' => if py_eq x y then gt_items l' m' else py_gt x y
         | _ :: _, [] => Ok true
         | [], _ => Ok false
         end) l m
  | _, _ =>
      match as_int a, as_int b with
      | Some x, Some y => Ok (y <? x)
      | _, _ => Raise TypeError
      end
  end.

(** [needle in s] on strings: substring test. *)
Fixpoint is_substring (needle s : string) : bool :=
  String.prefix needle s
  || match s with
     | EmptyString => false
     | String _ s' => is_substring needle s'
     end.

(** [k in v] for a string [k]. *)
Definition py_contains (k : string) (v : pyval) : result bool :=
  match v with
  | PDict d => Ok (match dict_get k d with Some _ => true | None => false end)
  | PList l => Ok (existsb (py_eq (PStr k)) l)
  | PStr s => Ok (is_substring k s)
  | _ => Raise TypeError
  end.

(** [v[k]] for a string [k]. *)
Definition py_getitem (v : pyval) (k : string) : result pyval :=
  match v with
  | PDict d => match dict_get k d with Some x => Ok x | None => Raise KeyError end
  | _ => Raise TypeError
  end.

(** [v[0]]; the keys of a [dict] are strings, so [0] is never one. *)
Definition py_getitem0 (v : pyval) : result pyval :=
  match v with
  | PList l => match l with x :: _ => Ok x | [] => Raise IndexError end
  | PStr s => match s with
              | String c _ => Ok (PStr (String c EmptyString))
              | EmptyString => Raise IndexError
              end
  | PDict _ => Raise KeyError
  | _ => Raise TypeError
  end.

(** The items [iter(v)] yields. *)
Definition py_iter (v : pyval) : result (list pyval) :=
  match v with
  | PList l => Ok l
  | PStr s => Ok (map (fun c => PStr (String c EmptyString)) (list_ascii_of_string s))
  | PDict d => Ok (map PStr (dict_keys d))
  | _ => Raise TypeError
  end.

(** [x.get(k, default)] *)
Definition py_get (x : pyval) (k : string) (default : pyval) : result pyval :=
  match x with
  | PDict d => Ok (match dict_get k d with Some v => v | None => default end)
  | _ => Raise (AttributeError (type_name x) "get")
  end.

Local Open Scope py_scope.

(** The scan of [max(iterable, key=...)]: the running maximum is replaced
    only by an item whose key is strictly greater. *)
Fixpoint max_loop (key : pyval -> result pyval) (items : list pyval)
         (maxitem maxval : pyval) : result pyval :=
  match items with
  | [] => Ok maxitem
  | item :: rest =>
      val <- key item ;;
      gt <- py_gt val maxval ;;
      if (gt : bool) then max_loop key rest item val
      else max_loop key rest maxitem maxval
  end.

Definition py_max (key : pyval -> result pyval) (v : pyval) : result pyval :=
  items <- py_iter v ;;
  match items with
  | [] => Raise ValueError
  | item :: rest => val <- key item ;; max_loop key rest item val
  end.

End Py.

(* ================================================================= *)
(** ** Strings and regular expressions *)

Module Str.

Definition lower_char (c : ascii) : ascii :=
  let n := N_of_ascii c in
  if ((65 <=? n) && (n <=? 90))%N then ascii_of_N (n + 32) else c.

(** [s.lower()] *)
Fixpoint lower (s : string) : string :=
  match s with
  | EmptyString => EmptyString
  | String c s' => String (lower_char c) (lower s')
  end.

(** [s.replace(c, '')] for a one-character [c] *)
Fixpoint remove_char (c : ascii) (s : string) : string :=
  match s with
  | EmptyString => EmptyString
  | String x s' =>
      if Ascii.eqb x c then remove_char c s' else String x (remove_char c s')
  end.

(** [s.split(c, 1)] when [c] occurs in [s]: the text before the first
    occurrence and the text after it; [None] when [c] does not occur. *)
Fixpoint split_once (c : ascii) (s : string) : option (string * string) :=
  match s with
  | EmptyString => None
  | String x s' =>
      if Ascii.eqb x c then Some (EmptyString, s')
      else match split_once c s' with
           | Some (l, r) => Some (String x l, r)
           | None => None
           end
  end.

(** [c in s] for a one-character [c] *)
Fixpoint contains_char (c : ascii) (s : string) : bool :=
  match s with
  | EmptyString => false
  | String x s' => Ascii.eqb x c || contains_char c s'
  end.

Definition is_digit (c : ascii) : bool :=
  let n := N_of_ascii c in ((48 <=? n) && (n <=? 57))%N.

(** [\s] on the ASCII range: tab to carriage return, the four separators
    [\x1c]-[\x1f], and the space. *)
Definition is_space (c : ascii) : bool :=
  let n := N_of_ascii c in
  (((9 <=? n) && (n <=? 13)) || ((28 <=? n) && (n <=? 31)) || (n =? 32))%N.

(** [s.lstrip()] *)
Fixpoint lstrip (s : string) : string :=
  match s with
  | EmptyString => EmptyString
  | String c s' => if is_space c then lstrip s' else s
  end.

(** [s.rstrip()] *)
Fixpoint rstrip (s : string) : string :=
  match s with
  | EmptyString => EmptyString
  | String c s' =>
      match rstrip s' with
      | EmptyString => if is_space c then EmptyString else String c EmptyString
      | r => String c r
      end
  end.

(** [s.strip()] *)
Definition strip (s : string) : string := rstrip (lstrip s).

(** [any(c.isdigit() for c in s)] *)
Fixpoint any_digit (s : string) : bool :=
  match s with
  | EmptyString => false
  | String c s' => is_digit c || any_digit s'
  end.

End Str.

Module Re.

(** One character's worth of pattern. *)
Inductive atom : Type :=
| Chr (c : ascii)            (* a literal character *)
| Digit                      (* [\d] *)
| Space                      (* [\s] *)
| OneOf (alts : list atom).  (* a bracketed set *)

(** The patterns of the checker are sequences of single atoms, atoms under
    [?] or [+], and the brackets of their one capturing group. *)
Inductive item : Type :=
| One (a : atom)
| Opt (a : atom)
| Plus (a : atom)
| GroupOpen
| GroupClose.

Definition regex := list item.

(** [ignorecase] is [re.IGNORECASE]. *)
Fixpoint atom_match (ignorecase : bool) (a : atom) (c : ascii) : bool :=
  match a with
  | Chr x =>
      if ignorecase then Ascii.eqb (Str.lower_char x) (Str.lower_char c)
      else Ascii.eqb x c
  | Digit => Str.is_digit c
  | Space => Str.is_space c
  | OneOf alts => existsb (fun a' => atom_match ignorecase a' c) alts
  end.

(** The first [n] characters of [s]. *)
Fixpoint take (n : nat) (s : string) : string :=
  match n, s with
  | S n', String c s' => String c (take n' s')
  | _, _ => EmptyString
  end.

(** Backtracking match of [re] at the start of [s]; greedy choices are
    tried first.  [start] is the text at which the group opened and [cap]
    the text captured so far.  The result is the captured group and the
    text left after the match. *)
Fixpoint match_here (ignorecase : bool) (re : regex)
  : string -> string -> string -> option (string * string) :=
  match re with
  | [] => fun s _ cap => Some (cap, s)
  | GroupOpen :: re' => fun s _ cap => match_here ignorecase re' s s cap
  | GroupClose :: re' => fun s start _ =>
      match_here ignorecase re' s start
                 (take (String.length start - String.length s) start)
  | One a :: re' => fun s start cap =>
      match s with
      | String c s' =>
          if atom_match ignorecase a c
          then match_here ignorecase re' s' start cap
          else None
      | EmptyString => None
      end
  | Opt a :: re' => fun s start cap =>
      match s with
      | String c s' =>
          if atom_match ignorecase a c
          then match match_here ignorecase re' s' start cap with
               | Some r => Some r
               | None => match_here ignorecase re' s start cap
               end
          else match_here ignorecase re' s start cap
      | EmptyString => match_here ignorecase re' s start cap
      end
  | Plus a :: re' => fun s start cap =>
      (fix plus (s : string) : option (string * string) :=
         match s with
         | String c s' =>
             if atom_match ignorecase a c
             then match plus s' with
                  | Some r => Some r
                  | None => match_here ignorecase re' s' start cap
                  end
             else None
         | EmptyString => None
         end) s
  end.

(** The scan of [re.findall]: matches are sought left to right and do not
    overlap; [skip] counts the characters of the last match still to be
    passed over. *)
Fixpoint scan (ignorecase : bool) (re : regex) (s : string) (skip : nat)
  : list string :=
  match s with
  | EmptyString =>
      match skip, match_here ignorecase re s s EmptyString with
      | O, Some (cap, _) => [cap]
      | _, _ => []
      end
  | String _ s' =>
      match skip with
      | S k => scan ignorecase re s' k
      | O =>
          match match_here ignorecase re s s EmptyString with
          | Some (cap, rest) =>
              cap :: scan ignorecase re s'
                          (String.length s - String.length rest - 1)
          | None => scan ignorecase re s' 0
          end
      end
  end.

(** [re.findall(pattern, s, flags)] for a pattern with one group: the
    list of the group's captures. *)
Definition findall (ignorecase : bool) (re : regex) (s : string) : list string :=
  scan ignorecase re s 0.

(** A literal word, character by character. *)
Fixpoint lit (w : string) : regex :=
  match w with
  | EmptyString => []
  | String c w' => One (Chr c) :: lit w'
  end.

Definition dot : item := One (Chr ".").
Definition digits : item := Plus Digit.

(** [\d+\.\d+\.\d+] *)
Definition three_part : regex := [digits; dot; digits; dot; digits].
(** [\d+\.\d+\.\d+\.\d+] *)
Definition four_part : regex := three_part ++ [dot; digits].
(** [[:\s]+] *)
Definition colon_or_spaces : item := Plus (OneOf [Chr ":"; Space]).

(** [v?(\d+\.\d+\.\d+\.\d+_\d+)] *)
Definition version_with_build : regex :=
  [Opt (Chr "v"); GroupOpen] ++ four_part ++ [One (Chr "_"); digits; GroupClose].

(** [<label>[:\s]+v?(\d+\.\d+\.\d+\.\d+)] *)
Definition labelled_four_part (label : string) : regex :=
  lit label ++ [colon_or_spaces; Opt (Chr "v"); GroupOpen] ++ four_part ++ [GroupClose].

(** [<label>[:\s]+([v]?\d+\.\d+\.\d+)] *)
Definition labelled_three_part (label : string) : regex :=
  lit label ++ [colon_or_spaces; GroupOpen; Opt (OneOf [Chr "v"])] ++ three_part ++ [GroupClose].

End Re.

(* ================================================================= *)
(** ** The [requests] session *)

Module Http.
Import Py.

Inductive method : Type := GET | POST.

Record request : Type := mkRequest {
  req_method : method;
  req_url : string;
  (** query parameters of a GET, form data of a POST *)
  req_params : list (string * pyval);
  (** headers given with the call, on top of the session's *)
  req_headers : list (string * string);
  (** [timeout=] in seconds; [None] when the call gives none, in which
      case [requests] waits without bound *)
  req_timeout : option Z
}.

Record response : Type := mkResponse {
  status_code : Z;
  text : string;
  (** the outcome of [response.json()] *)
  json : result pyval
}.

(** The requests issued so far, oldest first. *)
Definition trace := list request.

(** The outside world: what a request yields, given everything sent
    before it.  [Raise] stands for a connection error or a timeout. *)
Definition network := trace -> request -> result response.

(** Computations that issue requests and may raise. *)
Definition M (A : Type) : Type := trace -> result A * trace.

Definition ret {A} (a : A) : M A := fun tr => (Ok a, tr).

Definition bind {A B} (m : M A) (f : A -> M B) : M B :=
  fun tr =>
    match m tr with
    | (Ok a, tr') => f a tr'
    | (Raise e, tr') => (Raise e, tr')
    end.

Definition lift {A} (r : result A) : M A := fun tr => (r, tr).

(** [try: m  except Exception as e: handler e] *)
Definition try_except {A} (m : M A) (handler : exn -> M A) : M A :=
  fun tr =>
    match m tr with
    | (Ok a, tr') => (Ok a, tr')
    | (Raise e, tr') => handler e tr'
    end.

Definition send (net : network) (r : request) : M response :=
  fun tr => (net tr r, tr ++ [r]).

Declare Scope http_scope.
Delimit Scope http_scope with http.
Notation "x <- m ;; k" := (bind m (fun x => k))
  (at level 100, m at next level, right associativity) : http_scope.

End Http.

(* ================================================================= *)
(** ** [ReolinkFirmwareChecker] *)

Module Checker.
Import Py Http.

Section ReolinkFirmwareChecker.

(** The network the session talks to. *)
Variable net : network.

(** [packaging.version]: the values [version.parse] builds, the parser
    itself ([None] when it raises [InvalidVersion]) and the order of the
    values.  The comparator is first written over any such library; the
    module [Packaging] below supplies the one the specification
    describes. *)
Variable Version : Type.
Variable version_parse : string -> option Version.
Variable version_compare : Version -> Version -> comparison.

Definition base_url : string := "https://reolink.com".

(** *** Strategy 1: the vendor's firmware API *)

Definition api_url : string := base_url ++ "/wp-json/reo-v2/download/firmware/".

Definition api_headers : list (string * string) :=
  [ ("Accept", "application/json, text/plain, */*");
    ("Pragma", "no-cache");
    ("Sec-Fetch-Site", "same-origin");
    ("Accept-Language", "en-US,en;q=0.9");
    ("Cache-Control", "no-cache");
    ("Sec-Fetch-Mode", "cors");
    ("Accept-Encoding", "gzip, deflate, br");
    ("Referer", "https://reolink.com/download-center/");
    ("Sec-Fetch-Dest", "empty");
    ("Priority", "u=3, i") ].

(** [lambda x: x.get('updated_at', 0)] *)
Definition updated_at (x : pyval) : result pyval :=
  py_get x "updated_at" (PInt 0).

(** [max(firmwares, key=lambda x: x.get('updated_at', 0))] *)
Definition latest_firmware (firmwares : pyval) : result pyval :=
  py_max updated_at firmwares.

Definition extract_version_from_api_response (data : pyval) : result pyval :=
  (if negb (truthy data) then Ok PNone else
   has_data <- py_contains "data" data ;;
   if negb has_data then Ok PNone else
   firmware_list <- py_getitem data "data" ;;
   if negb (truthy firmware_list) then Ok PNone else
   product_data <- py_getitem0 firmware_list ;;
   has_firmwares <- py_contains "firmwares" product_data ;;
   if negb has_firmwares then Ok PNone else
   firmwares <- py_getitem product_data "firmwares" ;;
   if negb (truthy firmwares) then Ok PNone else
   latest <- latest_firmware firmwares ;;
   has_version <- py_contains "version" latest ;;
   if (has_version : bool) then py_getitem latest "version" else Ok PNone)%py.

Definition api_request (product_id hardware_version_id : pyval) : request :=
  {| req_method := GET;
     req_url := api_url;
     req_params := [ ("dlProductId", product_id);
                     ("hardwareVersion", hardware_version_id);
                     ("lang", PStr "en") ];
     req_headers := api_headers;
     req_timeout := Some 10 |}.

Definition get_reolink_firmware_api (product_id hardware_version_id : pyval)
  : M pyval :=
  try_except
    (response <- send net (api_request product_id hardware_version_id) ;;
     if status_code response =? 200 then
       data <- lift (json response) ;;
       lift (extract_version_from_api_response data)
     else ret PNone)%http
    (fun _ => ret PNone).

(** The table of known devices: model, product id, and the ids of its
    hardware versions. *)
Definition model_mappings : list (string * (Z * list (string * Z))) :=
  [ ("RLN8-410", (33, [ ("N2MB02", 231) ])) ].

Fixpoint lookup {A} (k : string) (d : list (string * A)) : option A :=
  match d with
  | [] => None
  | (k', v) :: d' => if String.eqb k k' then Some v else lookup k d'
  end.

Definition get_product_and_hardware_ids (model hardware_version : string)
  : pyval * pyval :=
  match lookup model model_mappings with
  | Some (product_id, hardware_versions) =>
      match lookup hardware_version hardware_versions with
      | Some hardware_id =>
          if truthy (PInt hardware_id)
          then (PInt product_id, PInt hardware_id)
          else (PNone, PNone)
      | None => (PNone, PNone)
      end
  | None => (PNone, PNone)
  end.

(** *** Strategy 3: the model's own download pages *)

Definition direct_urls (model : string) : list string :=
  [ (base_url ++ "/download-center/" ++ Str.lower model ++ "/")%string;
    (base_url ++ "/download/" ++ Str.lower model ++ "/")%string;
    (base_url ++ "/support/download/" ++ Str.lower model ++ "/")%string ].

Definition direct_patterns : list Re.regex :=
  [ Re.version_with_build;
    Re.labelled_three_part "Version";
    Re.labelled_three_part "Firmware" ].

Definition direct_request (url : string) : request :=
  {| req_method := GET; req_url := url; req_params := [];
     req_headers := []; req_timeout := Some 10 |}.

(** The inner loop over the patterns: [Some m] when the function returns
    [m], [None] when the loop runs out. *)
Fixpoint first_match (patterns : list Re.regex) (body : string) : option string :=
  match patterns with
  | [] => None
  | pattern :: rest =>
      match Re.findall true pattern body with
      | m :: _ => Some m
      | [] => first_match rest body
      end
  end.

(** The loop over the URLs: a page that answers 200 and holds a match ends
    the search, anything else moves on to the next URL. *)
Fixpoint direct_loop (urls : list string) : M pyval :=
  match urls with
  | [] => ret PNone
  | url :: rest =>
      (found <- try_except
                  (response <- send net (direct_request url) ;;
                   if status_code response =? 200
                   then ret (first_match direct_patterns (text response))
                   else ret None)
                  (fun _ => ret None) ;;
       match found with
       | Some m => ret (PStr m)
       | None => direct_loop rest
       end)%http
  end.

Definition try_direct_download_page (model : string) : M pyval :=
  direct_loop (direct_urls model).

(** *** Strategy 2: the download centre's search form *)

Definition html_patterns : list Re.regex :=
  [ Re.version_with_build;
    Re.labelled_four_part "Version";
    Re.labelled_four_part "Firmware";
    Re.labelled_four_part "Download" ].

(** [lambda x: x.replace('_', '').replace('.', '')] *)
Definition digits_key (x : pyval) : result pyval :=
  match x with
  | PStr s => Ok (PStr (Str.remove_char "." (Str.remove_char "_" s)))
  | _ => Raise (AttributeError (type_name x) "replace")
  end.

Fixpoint html_loop (patterns : list Re.regex) (html_content : string)
  : result pyval :=
  match patterns with
  | [] => Ok PNone
  | pattern :: rest =>
      match Re.findall true pattern html_content with
      | [] => html_loop rest html_content
      | matches =>
          match filter (fun m => (5 <? String.length m)%nat) matches with
          | [] => html_loop rest html_content
          | versions => py_max digits_key (PList (map PStr versions))
          end
      end
  end.

Definition extract_version_from_html (html_content : string) : result pyval :=
  html_loop html_patterns html_content.

Definition form_page_request : request :=
  {| req_method := GET; req_url := (base_url ++ "/download-center/")%string;
     req_params := []; req_headers := []; req_timeout := None |}.

Definition search_data (model hardware_version : string)
  : list (string * pyval) :=
  [ ("model", PStr model);
    ("hardware", PStr hardware_version);
    ("hw_version", PStr hardware_version);
    ("product", PStr model);
    ("query", PStr model);
    ("search", PStr model);
    ("type", PStr "firmware") ].

Definition form_post_request (model hardware_version : string) : request :=
  {| req_method := POST; req_url := (base_url ++ "/download-center/")%string;
     req_params := search_data model hardware_version;
     req_headers := []; req_timeout := None |}.

Definition sitesearch_request (model : string) : request :=
  {| req_method := GET; req_url := (base_url ++ "/sitesearch/")%string;
     req_params := [ ("q", PStr model) ];
     req_headers := []; req_timeout := None |}.

(** One of the two guarded attempts: [Some v] when the function returns
    [v] from inside the [try], [None] when control passes on. *)
Definition form_attempt (r : request) : M (option pyval) :=
  try_except
    (response <- send net r ;;
     if status_code response =? 200 then
       version <- lift (extract_version_from_html (text response)) ;;
       if truthy version then ret (Some version) else ret None
     else ret None)%http
    (fun _ => ret None).

(** The two [re.findall] calls on the first page bind [form_actions] and
    [search_urls], which nothing reads; they are left out. *)
Definition simulate_form_search (model hardware_version : string) : M pyval :=
  try_except
    (response <- send net form_page_request ;;
     if negb (status_code response =? 200) then ret PNone else
     posted <- form_attempt (form_post_request model hardware_version) ;;
     match posted with
     | Some version => ret version
     | None =>
         searched <- form_attempt (sitesearch_request model) ;;
         match searched with
         | Some version => ret version
         | None => ret PNone
         end
     end)%http
    (fun _ => ret PNone).

(** *** The resolver *)

Definition search_firmware (model hardware_version : string) : M pyval :=
  (let '(product_id, hardware_id) :=
     get_product_and_hardware_ids model hardware_version in
   from_api <-
     (if truthy product_id && truthy hardware_id then
        version <- get_reolink_firmware_api product_id hardware_id ;;
        if truthy version then ret (Some version) else ret None
      else ret None) ;;
   match from_api with
   | Some version => ret version
   | None =>
       version <- simulate_form_search model hardware_version ;;
       if truthy version then ret version else
       version <- try_direct_download_page model ;;
       if truthy version then ret version else
       ret PNone
   end)%http.

(** *** The comparator *)

(** What [parse_version_string] returns: a [Version], or the cleaned
    string when the library rejects it. *)
Inductive parsed : Type :=
| Structured (v : Version)
| Opaque (s : string).

(** [version_str.lower().replace('v', '')] *)
Definition clean_version (version_str : string) : string :=
  Str.remove_char "v" (Str.lower version_str).

(** The text handed to [version.parse]: when the cleaned string holds an
    underscore, [split('_', 1)] cuts it at the first one and the two parts
    are joined by a dot. *)
Definition comparable_version (clean : string) : string :=
  match Str.split_once "_" clean with
  | Some (base_part, build_part) => base_part ++ "." ++ build_part
  | None => clean
  end.

(** Only a [str] has [lower]. *)
Definition parse_version_string (version_str : pyval) : result parsed :=
  match version_str with
  | PStr s =>
      let clean := clean_version s in
      match version_parse (comparable_version clean) with
      | Some v => Ok (Structured v)
      | None => Ok (Opaque clean)
      end
  | _ => Raise (AttributeError (type_name version_str) "lower")
  end.

(** How an f-string renders a value; only strings reach the messages,
    since [parse_version_string] raises on anything else. *)
Definition fmt (v : pyval) : string :=
  match v with
  | PStr s => s
  | _ => type_name v
  end.

Definition msg_no_latest : string := "Could not determine latest version".
Definition msg_raw (current latest : string) : string :=
  "Current: " ++ current ++ ", Latest: " ++ latest.
Definition msg_new (current latest : string) : string :=
  "ðŸ”” New version available: " ++ latest ++ " (current: " ++ current ++ ")".
Definition msg_same (current : string) : string :=
  "âœ… You have the latest version: " ++ current.
Definition msg_newer (current latest : string) : string :=
  "Your version " ++ current ++ " is newer than listed " ++ latest.
Definition msg_error (e : exn) : string :=
  "Error comparing versions: " ++ exn_str e.

Definition compare_versions (current_version : string) (latest_version : pyval)
  : bool * string :=
  if negb (truthy latest_version) then (false, msg_no_latest) else
  match (current_parsed <- parse_version_string (PStr current_version) ;;
         latest_parsed <- parse_version_string latest_version ;;
         Ok (current_parsed, latest_parsed))%py with
  | Ok (current_parsed, latest_parsed) =>
      match current_parsed, latest_parsed with
      | Structured c, Structured l =>
          match version_compare l c with
          | Gt => (true, msg_new current_version (fmt latest_version))
          | Eq => (false, msg_same current_version)
          | Lt => (false, msg_newer current_version (fmt latest_version))
          end
      | _, _ =>
          (* isinstance(current_parsed, str) or isinstance(latest_parsed, str) *)
          (negb (py_eq (PStr current_version) latest_version),
           msg_raw current_version (fmt latest_version))
      end
  | Raise e => (false, msg_error e)
  end.

Definition check_for_updates (model hardware_version current_version : string)
  : M bool :=
  (latest_version <- search_firmware model hardware_version ;;
   if truthy latest_version then
     let '(has_update, message) := compare_versions current_version latest_version in
     ret has_update
   else ret false)%http.

(** *** The command line *)

(** How the process ends: [sys.exit(code)], or an exception nobody
    caught, after which the interpreter exits with status 1. *)
Inductive termination : Type :=
| Exit (code : Z)
| Traceback (e : exn).

Definition exit_status (t : termination) : Z :=
  match t with
  | Exit code => code
  | Traceback _ => 1
  end.

(** The loop of [manual_check] over the lines still to be read from the
    terminal; [input] raises [EOFError] when there is none.  The result
    comes with the lines left unread.  Opening the browser is not
    modelled. *)
Fixpoint manual_check (stdin : list string) : result pyval * list string :=
  match stdin with
  | [] => (Raise EOFError, [])
  | line :: rest =>
      let response := Str.lower (Str.strip line) in
      if String.eqb response "y" then
        match rest with
        | [] => (Raise EOFError, [])
        | line' :: rest' =>
            let version := Str.strip line' in
            if truthy (PStr version) then (Ok (PStr version), rest')
            else manual_check rest'
        end
      else if String.eqb response "n" then (Ok PNone, rest)
      else if String.prefix "v" response || Str.any_digit response
           then (Ok (PStr response), rest)
      else manual_check rest
  end.

(** A value read from the [device] table of the configuration counts
    when it is present and not empty. *)
Definition present (o : option string) : bool :=
  match o with
  | Some s => truthy (PStr s)
  | None => false
  end.

(** The last lines of [main]: the automatic check. *)
Definition automatic_check (model hardware_version current_version : string)
  : trace -> termination * trace :=
  fun tr =>
    match check_for_updates model hardware_version current_version tr with
    | (Ok has_update, tr') => (if has_update then Exit 1 else Exit 0, tr')
    | (Raise e, tr') => (Traceback e, tr')
    end.

(** [main], from the [device] table of the loaded configuration, the
    command line ([argv], program name first) and the lines the terminal
    will supply.  Writing the configuration back and printing it are the
    configuration store's business and leave no mark here. *)
Definition main (device_config : list (string * string)) (argv stdin : list string)
  : trace -> termination * trace :=
  fun tr =>
    let model := lookup "model" device_config in
    let hardware_version := lookup "hardware_version" device_config in
    let current_version := lookup "current_firmware_version" device_config in
    if negb (present model && present hardware_version && present current_version)
    then (Exit 1, tr)
    else
      match model, hardware_version, current_version with
      | Some model, Some hardware_version, Some current_version =>
          match argv with
          | _ :: arg :: args =>
              if String.eqb arg "--manual" then
                match manual_check stdin with
                | (Raise e, _) => (Traceback e, tr)
                | (Ok latest_version, stdin') =>
                    if truthy latest_version then
                      let '(has_update, message) :=
                        compare_versions current_version latest_version in
                      if (has_update : bool) then
                        match stdin' with
                        | [] => (Traceback EOFError, tr)
                        | _ :: _ => (Exit 1, tr)
                        end
                      else (Exit 0, tr)
                    else (Exit 0, tr)
                end
              else if String.eqb arg "--config" then (Exit 0, tr)
              else if String.eqb arg "--update-version" then
                match args with
                | _ :: _ => (Exit 0, tr)
                | [] => (Exit 1, tr)
                end
              else (Exit 1, tr)
          | _ => automatic_check model hardware_version current_version tr
          end
      | _, _, _ => (Exit 1, tr) (* not reached: the three values are present *)
      end.

End ReolinkFirmwareChecker.

Arguments Structured {Version} v.
Arguments Opaque {Version} s.
Arguments parse_version_string {Version} version_parse version_str.
Arguments compare_versions {Version} version_parse version_compare
  current_version latest_version.
Arguments check_for_updates net {Version} version_parse version_compare
  model hardware_version current_version.
Arguments automatic_check net {Version} version_parse version_compare
  model hardware_version current_version.
Arguments main net {Version} version_parse version_compare
  device_config argv stdin.

End Checker.

(* ================================================================= *)
(** ** [packaging.version] *)

Module Packaging.

(** Modelled from the spec: [version.parse] and the order of the values
    it returns belong to the [packaging] library, whose source is not part
    of the repository.  The specification describes them as parsing "a
    dotted numeric release identifier (standard release-version semantics:
    compare components left-to-right numerically, shorter sequences pad
    with zero)", parsing failing on a "non-numeric component, empty
    string, malformed structure".  A [Version] is the list of its numeric
    components. *)
Definition Version : Type := list N.

Definition digit_value (c : ascii) : N := N_of_ascii c - 48.

(** The value of a run of decimal digits, [None] on any other character. *)
Fixpoint parse_digits (acc : N) (s : string) : option N :=
  match s with
  | EmptyString => Some acc
  | String c s' =>
      if Str.is_digit c then parse_digits (10 * acc + digit_value c) s' else None
  end.

Definition parse_component (s : string) : option N :=
  match s with
  | EmptyString => None
  | _ => parse_digits 0 s
  end.

(** The pieces of [s] between its dots. *)
Fixpoint split_dots (s : string) : list string :=
  match s with
  | EmptyString => [EmptyString]
  | String c s' =>
      if Ascii.eqb c "." then EmptyString :: split_dots s'
      else match split_dots s' with
           | piece :: pieces => String c piece :: pieces
           | [] => [String c EmptyString]
           end
  end.

Fixpoint parse_components (pieces : list string) : option Version :=
  match pieces with
  | [] => Some []
  | piece :: rest =>
      match parse_component piece, parse_components rest with
      | Some n, Some ns => Some (n :: ns)
      | _, _ => None
      end
  end.

Definition version_parse (s : string) : option Version :=
  parse_components (split_dots s).

(** Left-to-right numeric comparison, the shorter side read as if padded
    with zeros. *)
Fixpoint version_compare (a b : Version) : comparison :=
  match a, b with
  | [], _ => if forallb (N.eqb 0) b then Eq else Lt
  | x :: a', [] =>
      match (x ?= 0)%N with
      | Eq => version_compare a' []
      | c => c
      end
  | x :: a', y :: b' =>
      match (x ?= y)%N with
      | Eq => version_compare a' b'
      | c => c
      end
  end.

End Packaging.

(* ================================================================= *)
(** ** [ReolinkConfig] *)

Module Config.
Import Py.

(** A loaded TOML document: a [dict] from table names to tables. *)
Definition document := list (string * pyval).

(** [d[k] = v]: the binding of [k] is replaced where it stands, a new key
    goes to the end. *)
Fixpoint dict_set (k : string) (v : pyval) (d : list (string * pyval))
  : list (string * pyval) :=
  match d with
  | [] => [(k, v)]
  | (k', v') :: d' =>
      if String.eqb k k' then (k, v) :: d' else (k', v') :: dict_set k v d'
  end.

(** [x[k] = v] for a string [k]; only a [dict] takes it. *)
Definition py_setitem (x : pyval) (k : string) (v : pyval) : result pyval :=
  match x with
  | PDict d => Ok (PDict (dict_set k v d))
  | _ => Raise TypeError
  end.

(** The file [./config]. *)
Inductive file : Type :=
| Absent
| Unreadable                      (* [toml.load] or [open] raises *)
| Document (doc : document).

(** What becomes of a write: the file holds the document handed to
    [toml.dump], or the write raises and leaves the file as the outcome
    says. *)
Inductive write_outcome : Type :=
| Written
| Failed (remains : file).

(** The object and the file behind it. *)
Record store : Type := mkStore {
  config : document;
  config_file : file
}.

Definition defaults_model : string := "RLN8-410".
Definition defaults_hardware : string := "N2MB02".
Definition defaults_version : string := "v3.5.1.368_25010326".

Definition settings_table : pyval :=
  PDict [ ("check_on_startup", PBool true);
          ("verbose_output", PBool false);
          ("auto_open_browser_on_manual", PBool true) ].

Definition device_table (model hardware_version firmware_version : string) : pyval :=
  PDict [ ("model", PStr model);
          ("hardware_version", PStr hardware_version);
          ("current_firmware_version", PStr firmware_version) ].

Definition _get_default_config : document :=
  [ ("device", device_table defaults_model defaults_hardware defaults_version);
    ("settings", settings_table) ].

(** [_save_config]: the exception of a failed write is caught. *)
Definition _save_config (w : write_outcome) (doc : document) (f : file) : file :=
  match w with
  | Written => Document doc
  | Failed remains => remains
  end.

(** [self.config.get('device', {})] *)
Definition get_device_config (c : document) : pyval :=
  match dict_get "device" c with
  | Some v => v
  | None => PDict []
  end.

(** [self.config.get('settings', {}).get(key, default)] *)
Definition get_setting (c : document) (key : string) (default : pyval)
  : result pyval :=
  py_get (match dict_get "settings" c with
          | Some v => v
          | None => PDict []
          end) key default.

Definition update_firmware_version (w : write_outcome) (new_version : string)
  (s : store) : result store :=
  (let c := match dict_get "device" (config s) with
            | Some _ => config s
            | None => dict_set "device" (PDict []) (config s)
            end in
   device <- py_getitem (PDict c) "device" ;;
   device' <- py_setitem device "current_firmware_version" (PStr new_version) ;;
   let c' := dict_set "device" device' c in
   Ok {| config := c'; config_file := _save_config w c' (config_file s) |})%py.

Definition update_device_info (w : write_outcome)
  (model hardware_version firmware_version : string) (s : store) : store :=
  let c' := dict_set "device"
              (device_table model hardware_version firmware_version) (config s) in
  {| config := c'; config_file := _save_config w c' (config_file s) |}.

(** [str(Path("./config"))] *)
Definition get_config_file_path : string := "config".

(** [input(...).strip() or default] *)
Definition answer_or (default : string) (line : string) : string :=
  let a := Str.strip line in
  if truthy (PStr a) then a else default.

(** [_interactive_setup], from the lines the terminal will supply; the
    result comes with the lines left unread. *)
Definition _interactive_setup (w : write_outcome) (stdin : list string) (f : file)
  : result store * list string :=
  match stdin with
  | l1 :: l2 :: l3 :: rest =>
      let doc := [ ("device", device_table (answer_or defaults_model l1)
                                           (answer_or defaults_hardware l2)
                                           (answer_or defaults_version l3));
                   ("settings", settings_table) ] in
      (Ok {| config := doc; config_file := _save_config w doc f |}, rest)
  | _ => (Raise EOFError, [])
  end.

(** [ReolinkConfig()]: [__init__] with [_load_config]. *)
Definition load (w : write_outcome) (stdin : list string) (f : file)
  : result store * list string :=
  match f with
  | Document doc => (Ok {| config := doc; config_file := f |}, stdin)
  | Unreadable => (Ok {| config := _get_default_config; config_file := f |}, stdin)
  | Absent => _interactive_setup w stdin f
  end.

End Config.

(* ================================================================= *)
(** ** Vocabulary of the statements *)

Module Spec.
Import Py Http Checker.

(** A firmware record as the API documents it: a [dict] whose
    [updated_at], when there is one, is an integer. *)
Definition record_ok (x : pyval) : bool :=
  match x with
  | PDict d =>
      match dict_get "updated_at" d with
      | None | Some (PInt _) => true
      | Some _ => false
      end
  | _ => false
  end.

(** The timestamp of a record, [0] when it has none. *)
Definition timestamp (x : pyval) : Z :=
  match x with
  | PDict d =>
      match dict_get "updated_at" d with
      | Some (PInt t) => t
      | _ => 0
      end
  | _ => 0
  end.

(** The [version] field of a record, [None] when it has none. *)
Definition version_field (x : pyval) : pyval :=
  match x with
  | PDict d =>
      match dict_get "version" d with
      | Some v => v
      | None => PNone
      end
  | _ => PNone
  end.

(** The comparator as the specification words it: only a leading [v] or
    [V] is stripped, and the underscore is rewritten when there is
    exactly one. *)
Definition strip_leading_v (s : string) : string :=
  match s with
  | String c s' => if Ascii.eqb c "v" || Ascii.eqb c "V" then s' else s
  | EmptyString => EmptyString
  end.

Definition spec_normalize (s : string) : string :=
  Str.lower (strip_leading_v s).

Fixpoint count_char (c : ascii) (s : string) : nat :=
  match s with
  | EmptyString => O
  | String x s' => (if Ascii.eqb x c then 1 else 0) + count_char c s'
  end.

Fixpoint replace_char (c by_c : ascii) (s : string) : string :=
  match s with
  | EmptyString => EmptyString
  | String x s' =>
      String (if Ascii.eqb x c then by_c else x) (replace_char c by_c s')
  end.

Definition spec_comparable (normalized : string) : string :=
  if Nat.eqb (count_char "_" normalized) 1
  then replace_char "_" "." normalized
  else normalized.

Definition spec_parse_version_string {Version : Type}
  (version_parse : string -> option Version) (s : string) : parsed Version :=
  let normalized := spec_normalize s in
  match version_parse (spec_comparable normalized) with
  | Some v => Structured v
  | None => Opaque normalized
  end.

(** Component [i] of a release tuple, a tuple that is too short being
    read as if padded with zeros. *)
Definition component (v : list N) (i : nat) : N := nth i v 0%N.

(** Left-to-right numeric order of padded tuples. *)
Definition tuple_lt (a b : list N) : Prop :=
  exists i,
    (forall j, (j < i)%nat -> component a j = component b j)
    /\ (component a i < component b i)%N.

Definition tuple_eq (a b : list N) : Prop :=
  forall i, component a i = component b i.

(** The digits of a match: [x.replace('_', '').replace('.', '')]. *)
Definition digit_string (m : string) : string :=
  Str.remove_char "." (Str.remove_char "_" m).



(** The matches of a pattern that [extract_version_from_html] keeps. *)
Definition long_matches (pattern : Re.regex) (html_content : string) : list string :=
  filter (fun m => (5 <? String.length m)%nat) (Re.findall true pattern html_content).

(** [m] is the first item of [l] whose digit string is greatest in the
    order of strings (character by character). *)
Definition first_greatest (l : list string) (m : string) : Prop :=
  exists before after,
    l = before ++ m :: after
    /\ Forall (fun x => String.ltb (digit_string x) (digit_string m) = true) before
    /\ Forall (fun x => String.ltb (digit_string m) (digit_string x) = false) after.

(** The pair is listed in the model-mapping table. *)
Definition in_model_mappings (model hardware_version : string) : bool :=
  match lookup model model_mappings with
  | Some (_, hardware_versions) =>
      match lookup hardware_version hardware_versions with
      | Some _ => true
      | None => false
      end
  | None => false
  end.

(** The requests a computation issues when run after [tr]. *)
Definition sent_by {A : Type} (m : M A) (tr : trace) : list request :=
  skipn (List.length tr) (snd (m tr)).

(** The least number of characters a pattern consumes. *)
Fixpoint min_chars (re : Re.regex) : nat :=
  match re with
  | [] => O
  | Re.One _ :: re' | Re.Plus _ :: re' => S (min_chars re')
  | _ :: re' => min_chars re'
  end.

(** The pattern has no group bracket. *)
Fixpoint no_group (re : Re.regex) : bool :=
  match re with
  | [] => true
  | Re.GroupOpen :: _ | Re.GroupClose :: _ => false
  | _ :: re' => no_group re'
  end.

(** A probe of the direct strategy that brings nothing: the request
    raises, or the answer is not a 200, or the page holds no match. *)
Definition probe_fails (o : result response) : Prop :=
  match o with
  | Ok r => status_code r = 200 -> first_match direct_patterns (text r) = None
  | Raise _ => True
  end.

(** The request is a POST. *)
Definition is_post (r : request) : bool :=
  match req_method r with
  | POST => true
  | GET => false
  end.

(** The entries of a [device] table that hold strings, which is how
    [main] reads the table. *)
Definition device_strings (device : pyval) : list (string * string) :=
  match device with
  | PDict d =>
      flat_map (fun kv => match snd kv with
                          | PStr s => [(fst kv, s)]
                          | _ => []
                          end) d
  | _ => []
  end.

(** The three values [main] insists on are there and not empty. *)
Definition complete (device_config : list (string * string)) : bool :=
  present (lookup "model" device_config)
  && present (lookup "hardware_version" device_config)
  && present (lookup "current_firmware_version" device_config).

(** [r] is the first item of [l] with the greatest timestamp. *)
Definition first_latest (l : list pyval) (r : pyval) : Prop :=
  exists before after,
    l = before ++ r :: after
    /\ (forall x, In x before -> timestamp x < timestamp r)
    /\ (forall x, In x after -> timestamp x <= timestamp r).

(** The selection as the specification words it: the record with the
    greatest timestamp, the last one winning among equals. *)
Fixpoint last_latest_from (best : pyval) (items : list pyval) : pyval :=
  match items with
  | [] => best
  | x :: rest =>
      if timestamp best <=? timestamp x then last_latest_from x rest
      else last_latest_from best rest
  end.

Definition last_latest (items : list pyval) : option pyval :=
  match items with
  | [] => None
  | x :: rest => Some (last_latest_from x rest)
  end.

End Spec.

(* ================================================================= *)
(** ** Sample inputs *)

Module Samples.
Import Py Http Checker.

(** The mock response of [test_api_response_parsing]. *)
Definition mock_firmwares : list pyval :=
  [ PDict [ ("id", PInt 484);
            ("version", PStr "v3.4.0.293_24010832");
            ("updated_at", PInt 1708309607000) ];
    PDict [ ("id", PInt 712);
            ("version", PStr "v3.5.1.368_25010326");
            ("updated_at", PInt 1736325210000) ] ].

Definition mock_product : list (string * pyval) :=
  [ ("title", PStr "RLN8-410 (NVR)"); ("firmwares", PList mock_firmwares) ].

Definition mock_response : list (string * pyval) :=
  [ ("result", PDict [ ("code", PInt 0); ("msg", PStr "ok") ]);
    ("data", PList [ PDict mock_product ]) ].

(** Two records with one timestamp. *)
Definition tied_firmwares : list pyval :=
  [ PDict [ ("version", PStr "v1.0.0.1_1"); ("updated_at", PInt 1700000000000) ];
    PDict [ ("version", PStr "v1.0.0.2_2"); ("updated_at", PInt 1700000000000) ] ].

Definition tied_response : list (string * pyval) :=
  [ ("data", PList [ PDict [ ("firmwares", PList tied_firmwares) ] ]) ].


(** A page that lists an older build before a newer one. *)
Definition two_builds_page : string :=
  "<li>v3.4.0.293_24010832</li><li>v3.5.1.368_25010326</li>".

(** A network on which every request fails to connect. *)
Definition offline : network := fun _ _ => Raise RequestException.

(** A server that answers every request with 404. *)
Definition not_found : network :=
  fun _ _ => Ok {| status_code := 404; text := ""; json := Raise ValueError |}.

(** The mocked API of [test_update_detection_with_mock]: the firmware
    endpoint answers with the mock response, nothing else is reachable. *)
Definition mock_api : network :=
  fun _ r =>
    if String.eqb (req_url r) api_url
    then Ok {| status_code := 200; text := "";
               json := Ok (PDict mock_response) |}
    else Raise RequestException.

(** A site where only the second of the model's pages exists. *)
Definition download_page_only : network :=
  fun _ r =>
    if String.eqb (req_url r) "https://reolink.com/download/rln8-410/"
    then Ok {| status_code := 200;
               text := "<p>Firmware: v3.5.1.368_25010326</p>";
               json := Raise ValueError |}
    else Ok {| status_code := 404; text := ""; json := Raise ValueError |}.

(** A download centre whose search form answers with a list of versions
    and whose site search is never needed. *)
Definition form_answers : network :=
  fun _ r =>
    match req_method r with
    | POST => Ok {| status_code := 200; text := two_builds_page;
                    json := Raise ValueError |}
    | GET => Ok {| status_code := 200; text := "<form action='/search'>";
                   json := Raise ValueError |}
    end.

End Samples.

(* ================================================================= *)
(** * Properties *)

Import Py Http Checker Spec Samples.

(** ** The scan of [max] *)

Lemma updated_at_record x :
  record_ok x = true -> updated_at x = Ok (PInt (timestamp x)).
Proof.
  destruct x as [| | | | |d]; simpl; try discriminate.
  unfold updated_at, py_get.
  destruct (dict_get "updated_at" d) as [[| | | | |]|]; simpl;
    intros H; try discriminate; reflexivity.
Qed.

Lemma first_latest_single x : first_latest [x] x.
Proof.
  exists [], []. repeat split; intros y [].
Qed.

Lemma first_latest_head_ge l x r :
  first_latest (x :: l) r -> timestamp x <= timestamp r.
Proof.
  intros (before & after & E & Hb & Ha).
  destruct before as [|b before]; simpl in E; injection E as -> E.
  - lia.
  - specialize (Hb b (or_introl eq_refl)). lia.
Qed.

Lemma first_latest_push l x y r :
  timestamp x < timestamp y ->
  first_latest (y :: l) r -> first_latest (x :: y :: l) r.
Proof.
  intros Hxy H. pose proof (first_latest_head_ge _ _ _ H) as Hge.
  destruct H as (before & after & E & Hb & Ha).
  exists (x :: before), after. rewrite E. repeat split; auto.
  intros z [<-|Hz]; [lia | auto].
Qed.

Lemma first_latest_skip l x y r :
  timestamp y <= timestamp x ->
  first_latest (x :: l) r -> first_latest (x :: y :: l) r.
Proof.
  intros Hyx (before & after & E & Hb & Ha).
  destruct before as [|b before]; simpl in E; injection E as -> E.
  - exists [], (y :: l). subst after. repeat split.
    + intros z [].
    + intros z [<-|Hz]; [lia | auto].
  - exists (b :: y :: before), after. subst l. repeat split; auto.
    intros z [<-|[<-|Hz]].
    + apply Hb; left; reflexivity.
    + pose proof (Hb b (or_introl eq_refl)). lia.
    + apply Hb; right; exact Hz.
Qed.

Lemma max_loop_first_latest rest :
  forall item,
    record_ok item = true ->
    forallb record_ok rest = true ->
    exists r,
      max_loop updated_at rest item (PInt (timestamp item)) = Ok r
      /\ first_latest (item :: rest) r.
Proof.
  induction rest as [|y rest IH]; intros item Hi Hr.
  - exists item. split; [reflexivity | apply first_latest_single].
  - simpl in Hr. apply andb_true_iff in Hr as [Hy Hr].
    simpl. rewrite (updated_at_record _ Hy). simpl.
    destruct (timestamp item <? timestamp y) eqn:Hlt.
    + destruct (IH y Hy Hr) as (r & Hrun & Hfirst).
      exists r. split; [exact Hrun|].
      apply first_latest_push; [apply Z.ltb_lt; exact Hlt | exact Hfirst].
    + destruct (IH item Hi Hr) as (r & Hrun & Hfirst).
      exists r. split; [exact Hrun|].
      apply first_latest_skip; [apply Z.ltb_ge; exact Hlt | exact Hfirst].
Qed.

Lemma dict_get_some_truthy k d v :
  dict_get k d = Some v -> truthy (PDict d) = true.
Proof. destruct d; [discriminate | reflexivity]. Qed.

Lemma version_of_record r :
  record_ok r = true ->
  (has_version <- py_contains "version" r ;;
   if (has_version : bool) then py_getitem r "version" else Ok PNone)%py
  = Ok (version_field r).
Proof.
  destruct r as [| | | | |d]; simpl; try discriminate. intros _.
  destruct (dict_get "version" d); reflexivity.
Qed.

Lemma first_latest_in l r : first_latest l r -> In r l.
Proof.
  intros (before & after & -> & _). apply in_or_app. right. left. reflexivity.
Qed.

(** ** C1: which record the API extraction selects *)

(** C1 (amended).  For an API response body whose [data[0].firmwares] is a
    non-empty list of firmware records, the extraction step selects the
    FIRST record, in list order, that carries the greatest [updated_at]
    timestamp (a missing timestamp counting as 0), and returns that
    record's [version] field ([None] when the record has none). *)
Theorem extract_version_selects_first_latest
  (body product : list (string * pyval)) (others firmwares : list pyval) :
  dict_get "data" body = Some (PList (PDict product :: others)) ->
  dict_get "firmwares" product = Some (PList firmwares) ->
  firmwares <> [] ->
  forallb record_ok firmwares = true ->
  exists r,
    first_latest firmwares r
    /\ extract_version_from_api_response (PDict body) = Ok (version_field r).
Proof.
  intros Hdata Hfw Hne Hok.
  destruct firmwares as [|item rest]; [contradiction|].
  simpl in Hok. apply andb_true_iff in Hok as [Hitem Hrest].
  destruct (max_loop_first_latest rest item Hitem Hrest) as (r & Hrun & Hfirst).
  exists r. split; [exact Hfirst|].
  unfold extract_version_from_api_response.
  rewrite (dict_get_some_truthy _ _ _ Hdata). simpl.
  rewrite Hdata. simpl. rewrite Hfw. simpl.
  unfold latest_firmware, py_max. simpl.
  rewrite (updated_at_record _ Hitem). simpl. rewrite Hrun. simpl.
  apply version_of_record.
  pose proof (first_latest_in _ _ Hfirst) as Hin.
  assert (Hall : forallb record_ok (item :: rest) = true)
    by (simpl; rewrite Hitem, Hrest; reflexivity).
  rewrite forallb_forall in Hall. apply Hall. exact Hin.
Qed.

Lemma extract_version_selects_first_latest_witness :
  exists r,
    first_latest mock_firmwares r
    /\ extract_version_from_api_response (PDict mock_response)
       = Ok (version_field r).
Proof.
  apply (extract_version_selects_first_latest
           mock_response mock_product [] mock_firmwares);
    [reflexivity | reflexivity | discriminate | reflexivity].
Defined.

(** C1 as stated fails: with two records of equal timestamp the last one
    is the specification's choice, and the code returns the first one's
    version. *)
Lemma extract_version_last_wins_counterexample :
  last_latest tied_firmwares
  = Some (PDict [ ("version", PStr "v1.0.0.2_2");
                  ("updated_at", PInt 1700000000000) ])
  /\ extract_version_from_api_response (PDict tied_response)
     = Ok (PStr "v1.0.0.1_1")
  /\ ~ (exists r, last_latest tied_firmwares = Some r
                  /\ extract_version_from_api_response (PDict tied_response)
                     = Ok (version_field r)).
Proof.
  split; [reflexivity|]. split; [reflexivity|].
  intros (r & Hr & Hx). vm_compute in Hr. injection Hr as <-.
  vm_compute in Hx. discriminate.
Qed.

(** ** C10: a record without [updated_at] counts as timestamp 0 *)

Lemma py_gt_int_left k v a b :
  as_int k = Some a -> py_gt k v = Ok b ->
  exists c, as_int v = Some c /\ b = (c <? a).
Proof.
  intros Hk Hgt.
  destruct k; simpl in Hk; try discriminate;
    destruct v; simpl in Hgt; try discriminate;
    injection Hk as <-; injection Hgt as <-; eexists; split; reflexivity.
Qed.

Lemma py_gt_int_right k v c b :
  as_int v = Some c -> py_gt k v = Ok b ->
  exists a, as_int k = Some a /\ b = (c <? a).
Proof.
  intros Hv Hgt.
  destruct v; simpl in Hv; try discriminate;
    destruct k; simpl in Hgt; try discriminate;
    injection Hv as <-; injection Hgt as <-; eexists; split; reflexivity.
Qed.

Section MaxOverIntegers.

Variable key : pyval -> result pyval.

(** When the scan starts from an integer key and succeeds, every key it
    met is an integer and the key of the result bounds them all. *)
Lemma max_loop_int_bound rest :
  forall item val m r,
    key item = Ok val -> as_int val = Some m ->
    max_loop key rest item val = Ok r ->
    exists vr mr,
      key r = Ok vr /\ as_int vr = Some mr /\ m <= mr
      /\ (forall x k a, In x rest -> key x = Ok k -> as_int k = Some a -> a <= mr).
Proof.
  induction rest as [|y rest IH]; intros item val m r Hkey Hval Hrun.
  - simpl in Hrun. injection Hrun as <-.
    exists val, m. repeat split; auto; try lia. intros x k a [].
  - simpl in Hrun. destruct (key y) as [ky|] eqn:Hky; simpl in Hrun; [|discriminate].
    destruct (py_gt ky val) as [gt|] eqn:Hgt; simpl in Hrun; [|discriminate].
    destruct (py_gt_int_right _ _ _ _ Hval Hgt) as (a & Ha & ->).
    destruct (m <? a) eqn:Hlt.
    + apply Z.ltb_lt in Hlt.
      destruct (IH y ky a r Hky Ha Hrun) as (vr & mr & Hr & Hmr & Hle & Hall).
      exists vr, mr. repeat split; auto; try lia.
      intros x k a' [<-|Hin] Hk Ha'.
      * rewrite Hky in Hk. injection Hk as <-. rewrite Ha in Ha'.
        injection Ha' as <-. exact Hle.
      * eapply Hall; eauto.
    + apply Z.ltb_ge in Hlt.
      destruct (IH item val m r Hkey Hval Hrun) as (vr & mr & Hr & Hmr & Hle & Hall).
      exists vr, mr. repeat split; auto.
      intros x k a' [<-|Hin] Hk Ha'.
      * rewrite Hky in Hk. injection Hk as <-. rewrite Ha in Ha'.
        injection Ha' as <-. lia.
      * eapply Hall; eauto.
Qed.

(** When the scan succeeds and met an integer key, it started from one. *)
Lemma max_loop_int_start rest :
  forall item val r x k a,
    max_loop key rest item val = Ok r ->
    In x rest -> key x = Ok k -> as_int k = Some a ->
    exists m, as_int val = Some m.
Proof.
  induction rest as [|y rest IH]; intros item val r x k a Hrun Hin Hk Ha.
  - destruct Hin.
  - simpl in Hrun. destruct (key y) as [ky|] eqn:Hky; simpl in Hrun; [|discriminate].
    destruct (py_gt ky val) as [gt|] eqn:Hgt; simpl in Hrun; [|discriminate].
    destruct Hin as [<-|Hin].
    + rewrite Hky in Hk. injection Hk as <-.
      destruct (py_gt_int_left _ _ _ _ Ha Hgt) as (c & Hc & _). eauto.
    + destruct gt.
      * destruct (IH y ky r x k a Hrun Hin Hk Ha) as (m & Hm).
        destruct (py_gt_int_left _ _ _ _ Hm Hgt) as (c & Hc & _). eauto.
      * eapply IH; eauto.
Qed.

End MaxOverIntegers.

(** C10.  A firmware record without [updated_at] takes part in the
    selection with timestamp 0; so whenever the list holds a record with
    a positive [updated_at], the record selected is one that has the
    field. *)
Theorem missing_updated_at_counts_as_zero
  (firmwares : list pyval) (r x : pyval) (t : Z) :
  latest_firmware (PList firmwares) = Ok r ->
  In x firmwares -> updated_at x = Ok (PInt t) -> 0 < t ->
  (forall d, dict_get "updated_at" d = None -> updated_at (PDict d) = Ok (PInt 0))
  /\ exists d v, r = PDict d /\ dict_get "updated_at" d = Some v.
Proof.
  intros Hsel Hin Hx Ht. split.
  { intros d Hd. unfold updated_at, py_get. rewrite Hd. reflexivity. }
  unfold latest_firmware, py_max in Hsel. simpl in Hsel.
  destruct firmwares as [|item rest]; [discriminate|].
  destruct (updated_at item) as [val|] eqn:Hitem; simpl in Hsel; [|discriminate].
  assert (Hbound : exists vr mr,
             updated_at r = Ok vr /\ as_int vr = Some mr /\ t <= mr).
  { destruct Hin as [<-|Hin].
    - rewrite Hx in Hitem. injection Hitem as <-.
      destruct (max_loop_int_bound updated_at rest item (PInt t) t r Hx eq_refl Hsel)
        as (vr & mr & Hr & Hmr & Hle & _).
      exists vr, mr. auto.
    - destruct (max_loop_int_start updated_at rest item val r x (PInt t) t
                  Hsel Hin Hx eq_refl) as (m & Hm).
      destruct (max_loop_int_bound updated_at rest item val m r Hitem Hm Hsel)
        as (vr & mr & Hr & Hmr & _ & Hall).
      exists vr, mr. repeat split; auto.
      apply (Hall x (PInt t) t Hin Hx eq_refl). }
  destruct Hbound as (vr & mr & Hr & Hmr & Hle).
  destruct r as [| | | | |d]; try discriminate.
  unfold updated_at, py_get in Hr. injection Hr as Hr.
  destruct (dict_get "updated_at" d) as [v|] eqn:Hd.
  - exists d, v. split; [reflexivity | exact Hd].
  - subst vr. simpl in Hmr. injection Hmr as <-. lia.
Qed.

Lemma missing_updated_at_counts_as_zero_witness :
  (forall d, dict_get "updated_at" d = None -> updated_at (PDict d) = Ok (PInt 0))
  /\ exists d v,
      PDict [ ("version", PStr "v2"); ("updated_at", PInt 5) ] = PDict d
      /\ dict_get "updated_at" d = Some v.
Proof.
  apply (missing_updated_at_counts_as_zero
           [ PDict [ ("version", PStr "v1") ];
             PDict [ ("version", PStr "v2"); ("updated_at", PInt 5) ] ]
           (PDict [ ("version", PStr "v2"); ("updated_at", PInt 5) ])
           (PDict [ ("version", PStr "v2"); ("updated_at", PInt 5) ])
           5).
  - reflexivity.
  - right. left. reflexivity.
  - reflexivity.
  - lia.
Defined.

(** ** The order of release tuples *)

Lemma component_nil i : component [] i = 0%N.
Proof. unfold component. destruct i; reflexivity. Qed.

Lemma tuple_lt_cons x y a b :
  x = y -> tuple_lt a b -> tuple_lt (x :: a) (y :: b).
Proof.
  intros -> (i & Hpre & Hlt). exists (S i). split.
  - intros [|j] Hj; [reflexivity | apply Hpre; lia].
  - exact Hlt.
Qed.

Lemma tuple_eq_cons x y a b :
  x = y -> tuple_eq a b -> tuple_eq (x :: a) (y :: b).
Proof. intros -> H [|i]; [reflexivity | apply H]. Qed.

Lemma tuple_lt_head x y a b : (x < y)%N -> tuple_lt (x :: a) (y :: b).
Proof. intros H. exists O. split; [intros j Hj; lia | exact H]. Qed.

Lemma all_zero_eq b :
  forallb (N.eqb 0) b = true -> tuple_eq [] b.
Proof.
  induction b as [|y b IH]; intros H i.
  - reflexivity.
  - simpl in H. apply andb_true_iff in H as [Hy Hb].
    destruct y; [|discriminate].
    destruct i as [|i]; [reflexivity|].
    specialize (IH Hb i). rewrite component_nil in *. exact IH.
Qed.

Lemma not_all_zero_lt b :
  forallb (N.eqb 0) b = false -> tuple_lt [] b.
Proof.
  induction b as [|y b IH]; intros H; [discriminate|].
  simpl in H. destruct y as [|p]; simpl in H.
  - destruct (IH H) as (i & Hpre & Hlt). exists (S i). split.
    + intros [|j] Hj; [reflexivity|].
      specialize (Hpre j ltac:(lia)). rewrite component_nil in *. exact Hpre.
    + rewrite component_nil in *. exact Hlt.
  - exists O. split; [intros j Hj; lia|].
    unfold component; simpl. lia.
Qed.

(** [Packaging.version_compare] decides the order of padded tuples. *)
Lemma version_compare_spec a :
  forall b,
    match Packaging.version_compare a b with
    | Lt => tuple_lt a b
    | Eq => tuple_eq a b
    | Gt => tuple_lt b a
    end.
Proof.
  induction a as [|x a IH]; intros b.
  - simpl. destruct (forallb (N.eqb 0) b) eqn:Hb.
    + apply all_zero_eq; exact Hb.
    + apply not_all_zero_lt; exact Hb.
  - destruct b as [|y b]; simpl.
    + destruct x as [|p]; simpl.
      * specialize (IH []). destruct (Packaging.version_compare a []).
        -- intros [|i]; [reflexivity|].
           specialize (IH i). rewrite component_nil in *. exact IH.
        -- destruct IH as (i & Hpre & Hlt). rewrite component_nil in Hlt. lia.
        -- destruct IH as (i & Hpre & Hlt). exists (S i). split.
           ++ intros [|j] Hj; [reflexivity|].
              specialize (Hpre j ltac:(lia)). rewrite component_nil in *. exact Hpre.
           ++ rewrite component_nil in *. exact Hlt.
      * exists O. split; [intros j Hj; lia | reflexivity].
    + destruct (x ?= y)%N eqn:Hxy.
      * apply N.compare_eq in Hxy. specialize (IH b).
        destruct (Packaging.version_compare a b).
        -- apply tuple_eq_cons; assumption.
        -- apply tuple_lt_cons; assumption.
        -- apply tuple_lt_cons; [symmetry|]; assumption.
      * apply N.compare_lt_iff in Hxy. apply tuple_lt_head; exact Hxy.
      * apply N.compare_gt_iff in Hxy. apply tuple_lt_head; exact Hxy.
Qed.

Lemma tuple_lt_not_eq a b : tuple_lt a b -> ~ tuple_eq a b.
Proof. intros (i & _ & Hlt) Heq. specialize (Heq i). lia. Qed.

Lemma tuple_lt_asym a b : tuple_lt a b -> ~ tuple_lt b a.
Proof.
  intros (i & Hi & Hlt) (j & Hj & Hgt).
  destruct (Nat.lt_trichotomy i j) as [H|[H|H]].
  - specialize (Hj i H). lia.
  - subst j. lia.
  - specialize (Hi j H). lia.
Qed.

Lemma version_compare_gt a b :
  Packaging.version_compare a b = Gt <-> tuple_lt b a.
Proof.
  pose proof (version_compare_spec a b) as H. split.
  - intros E. rewrite E in H. exact H.
  - intros Hlt. destruct (Packaging.version_compare a b); [| |reflexivity].
    + apply tuple_lt_not_eq in Hlt. exfalso. apply Hlt. intros i. symmetry. apply H.
    + exfalso. exact (tuple_lt_asym _ _ Hlt H).
Qed.

Lemma version_compare_eq a b :
  Packaging.version_compare a b = Eq <-> tuple_eq a b.
Proof.
  pose proof (version_compare_spec a b) as H. split.
  - intros E. rewrite E in H. exact H.
  - intros Heq. destruct (Packaging.version_compare a b); [reflexivity| |].
    + exfalso. exact (tuple_lt_not_eq _ _ H Heq).
    + exfalso. apply (tuple_lt_not_eq _ _ H). intros i. symmetry. apply Heq.
Qed.

Lemma version_compare_lt a b :
  Packaging.version_compare a b = Lt <-> tuple_lt a b.
Proof.
  pose proof (version_compare_spec a b) as H. split.
  - intros E. rewrite E in H. exact H.
  - intros Hlt. destruct (Packaging.version_compare a b); [| reflexivity |].
    + exfalso. exact (tuple_lt_not_eq _ _ Hlt H).
    + exfalso. exact (tuple_lt_asym _ _ Hlt H).
Qed.

(** ** The comparator over any version library *)

Section Comparator.

Context {Version : Type}.
Variable version_parse : string -> option Version.
Variable version_compare : Version -> Version -> comparison.

Lemma truthy_str s : s <> "" -> truthy (PStr s) = true.
Proof. intros H. simpl. apply String.eqb_neq in H. rewrite H. reflexivity. Qed.

Lemma py_eq_str s t : py_eq (PStr s) (PStr t) = String.eqb s t.
Proof. reflexivity. Qed.

(** What the comparator does once both sides are structured. *)
Lemma compare_versions_both_structured current latest c l :
  latest <> "" ->
  version_parse (comparable_version (clean_version current)) = Some c ->
  version_parse (comparable_version (clean_version latest)) = Some l ->
  compare_versions version_parse version_compare current (PStr latest)
  = match version_compare l c with
    | Gt => (true, msg_new current latest)
    | Eq => (false, msg_same current)
    | Lt => (false, msg_newer current latest)
    end.
Proof.
  intros Hne Hc Hl. unfold compare_versions.
  rewrite (truthy_str _ Hne). simpl. rewrite Hc, Hl. simpl. reflexivity.
Qed.

(** What the comparator does once a side is opaque. *)
Lemma compare_versions_some_opaque current latest :
  latest <> "" ->
  version_parse (comparable_version (clean_version current)) = None
  \/ version_parse (comparable_version (clean_version latest)) = None ->
  compare_versions version_parse version_compare current (PStr latest)
  = (negb (String.eqb current latest), msg_raw current latest).
Proof.
  intros Hne Hnone. unfold compare_versions.
  rewrite (truthy_str _ Hne). simpl.
  destruct (version_parse (comparable_version (clean_version current)));
    destruct (version_parse (comparable_version (clean_version latest)));
    simpl; try reflexivity.
  destruct Hnone; discriminate.
Qed.

End Comparator.

Lemma packaging_rejects_empty : Packaging.version_parse "" = None.
Proof. reflexivity. Qed.

Lemma packaging_parsed_nonempty s v :
  Packaging.version_parse (comparable_version (clean_version s)) = Some v ->
  s <> "".
Proof. intros H ->. discriminate. Qed.

(** ** C2: the comparator on structured versions *)

(** C2.  When both version strings normalize to dotted-numeric tuples
    [c] (current) and [l] (latest), [compare_versions] answers
    [(true, new version available)] exactly when [l] is greater than [c]
    in the left-to-right numeric order of zero-padded tuples, [(false,
    already on latest)] when the tuples are equal, and [(false, current is
    newer than listed)] when [l] is smaller. *)
Theorem compare_versions_structured (current latest : string) (c l : list N) :
  Packaging.version_parse (comparable_version (clean_version current)) = Some c ->
  Packaging.version_parse (comparable_version (clean_version latest)) = Some l ->
  let answer :=
    compare_versions Packaging.version_parse Packaging.version_compare
                     current (PStr latest) in
  (tuple_lt c l -> answer = (true, msg_new current latest))
  /\ (tuple_eq c l -> answer = (false, msg_same current))
  /\ (tuple_lt l c -> answer = (false, msg_newer current latest))
  /\ (fst answer = true <-> tuple_lt c l).
Proof.
  intros Hc Hl answer.
  pose proof (packaging_parsed_nonempty _ _ Hl) as Hne.
  assert (Hanswer : answer = match Packaging.version_compare l c with
                             | Gt => (true, msg_new current latest)
                             | Eq => (false, msg_same current)
                             | Lt => (false, msg_newer current latest)
                             end)
    by (apply compare_versions_both_structured; assumption).
  repeat split.
  - intros H. apply version_compare_gt in H. rewrite Hanswer, H. reflexivity.
  - intros H. assert (H' : tuple_eq l c) by (intros i; symmetry; apply H).
    apply version_compare_eq in H'. rewrite Hanswer, H'. reflexivity.
  - intros H. apply version_compare_lt in H. rewrite Hanswer, H. reflexivity.
  - intros H. apply version_compare_gt. rewrite Hanswer in H.
    destruct (Packaging.version_compare l c); [discriminate H | discriminate H | reflexivity].
  - intros H. apply version_compare_gt in H. rewrite Hanswer, H. reflexivity.
Qed.

Lemma compare_versions_structured_witness :
  let answer :=
    compare_versions Packaging.version_parse Packaging.version_compare
                     "v3.5.1.368_25010324" (PStr "v3.5.1.368_25010326") in
  (tuple_lt [3; 5; 1; 368; 25010324]%N [3; 5; 1; 368; 25010326]%N ->
   answer = (true, msg_new "v3.5.1.368_25010324" "v3.5.1.368_25010326"))
  /\ (tuple_eq [3; 5; 1; 368; 25010324]%N [3; 5; 1; 368; 25010326]%N ->
      answer = (false, msg_same "v3.5.1.368_25010324"))
  /\ (tuple_lt [3; 5; 1; 368; 25010326]%N [3; 5; 1; 368; 25010324]%N ->
      answer = (false, msg_newer "v3.5.1.368_25010324" "v3.5.1.368_25010326"))
  /\ (fst answer = true <->
      tuple_lt [3; 5; 1; 368; 25010324]%N [3; 5; 1; 368; 25010326]%N).
Proof.
  apply (compare_versions_structured
           "v3.5.1.368_25010324" "v3.5.1.368_25010326"
           [3; 5; 1; 368; 25010324]%N [3; 5; 1; 368; 25010326]%N);
    reflexivity.
Defined.

(** ** C8: the comparator on opaque versions *)

Lemma parse_opaque_inv {Version : Type} (version_parse : string -> option Version) s o :
  parse_version_string version_parse (PStr s) = Ok (Opaque o) ->
  version_parse (comparable_version (clean_version s)) = None.
Proof.
  unfold parse_version_string.
  destruct (version_parse (comparable_version (clean_version s)));
    [discriminate | reflexivity].
Qed.

(** C8 (amended).  For every pair of version strings whose latest side is
    not empty and for which normalization gives the opaque-string
    fallback on at least one side, [compare_versions] returns [hasUpdate]
    equal to the inequality of the two raw strings, with a message that
    reports both of them.  This holds whatever the version library
    accepts. *)
Theorem compare_versions_opaque {Version : Type}
  (version_parse : string -> option Version)
  (version_compare : Version -> Version -> comparison)
  (current latest : string) :
  latest <> "" ->
  (exists o, parse_version_string version_parse (PStr current) = Ok (Opaque o))
  \/ (exists o, parse_version_string version_parse (PStr latest) = Ok (Opaque o)) ->
  compare_versions version_parse version_compare current (PStr latest)
  = (negb (String.eqb current latest),
     ("Current: " ++ current ++ ", Latest: " ++ latest)%string).
Proof.
  intros Hne Hopaque.
  apply compare_versions_some_opaque; [exact Hne|].
  destruct Hopaque as [(o & H)|(o & H)]; [left | right];
    exact (parse_opaque_inv _ _ _ H).
Qed.

Lemma compare_versions_opaque_witness :
  compare_versions Packaging.version_parse Packaging.version_compare
                   "v3.5.1.368_25010326" (PStr "unknown")
  = (true, "Current: v3.5.1.368_25010326, Latest: unknown").
Proof.
  apply (compare_versions_opaque Packaging.version_parse Packaging.version_compare
           "v3.5.1.368_25010326" "unknown").
  - discriminate.
  - right. exists "unknown". reflexivity.
Defined.

(** C8 as stated fails on an empty latest string: normalization gives the
    opaque fallback, the raw strings differ, and the guard at the head of
    [compare_versions] answers that there is no update. *)
Lemma compare_versions_opaque_counterexample :
  parse_version_string Packaging.version_parse (PStr "") = Ok (Opaque "")
  /\ negb (String.eqb "v3.5.1.368_25010326" "") = true
  /\ compare_versions Packaging.version_parse Packaging.version_compare
                      "v3.5.1.368_25010326" (PStr "")
     = (false, "Could not determine latest version")
  /\ ~ (forall current latest : string,
          (exists o, parse_version_string Packaging.version_parse (PStr current)
                     = Ok (Opaque o))
          \/ (exists o, parse_version_string Packaging.version_parse (PStr latest)
                        = Ok (Opaque o)) ->
          fst (compare_versions Packaging.version_parse Packaging.version_compare
                                current (PStr latest))
          = negb (String.eqb current latest)).
Proof.
  repeat split.
  intros H. specialize (H "v3.5.1.368_25010326" "").
  assert (Hopaque :
            (exists o, parse_version_string Packaging.version_parse
                         (PStr "v3.5.1.368_25010326") = Ok (Opaque o))
            \/ (exists o, parse_version_string Packaging.version_parse (PStr "")
                          = Ok (Opaque o)))
    by (right; exists ""; reflexivity).
  specialize (H Hopaque). vm_compute in H. discriminate.
Qed.

(** ** C3: normalization in [parse_version_string] *)

Lemma clean_version_chars s :
  list_ascii_of_string (clean_version s)
  = filter (fun c => negb (Ascii.eqb c "v"))
           (map Str.lower_char (list_ascii_of_string s)).
Proof.
  unfold clean_version. induction s as [|c s IH]; [reflexivity|].
  simpl. destruct (Ascii.eqb (Str.lower_char c) "v"); simpl; rewrite IH; reflexivity.
Qed.

Lemma split_once_absent c s :
  Str.contains_char c s = false -> Str.split_once c s = None.
Proof.
  induction s as [|x s IH]; [reflexivity|]. simpl.
  destruct (Ascii.eqb x c); simpl; [discriminate|].
  intros H. rewrite (IH H). reflexivity.
Qed.

Lemma split_once_first c base build :
  Str.contains_char c base = false ->
  Str.split_once c (base ++ String c build)%string = Some (base, build).
Proof.
  induction base as [|x base IH]; simpl.
  - intros _. rewrite Ascii.eqb_refl. reflexivity.
  - destruct (Ascii.eqb x c); simpl; [discriminate|].
    intros H. rewrite (IH H). reflexivity.
Qed.

(** C3 (amended).  [parse_version_string] lower-cases its input and
    removes EVERY [v] from it, wherever it stands; when the cleaned string
    holds AT LEAST one underscore, the FIRST underscore is replaced by a
    dot (the later ones stay); the result goes to the version parser, and
    when that fails the cleaned string, underscores untouched, is
    returned as the opaque value. *)
Theorem parse_version_string_pipeline {Version : Type}
  (version_parse : string -> option Version) (s : string) :
  let clean := clean_version s in
  list_ascii_of_string clean
  = filter (fun c => negb (Ascii.eqb c "v"))
           (map Str.lower_char (list_ascii_of_string s))
  /\ (Str.contains_char "_" clean = false -> comparable_version clean = clean)
  /\ (forall base build,
        clean = (base ++ "_" ++ build)%string ->
        Str.contains_char "_" base = false ->
        comparable_version clean = (base ++ "." ++ build)%string)
  /\ parse_version_string version_parse (PStr s)
     = Ok (match version_parse (comparable_version clean) with
           | Some v => Structured v
           | None => Opaque clean
           end).
Proof.
  intros clean. split; [apply clean_version_chars|]. split; [|split].
  - intros H. unfold comparable_version. rewrite (split_once_absent _ _ H).
    reflexivity.
  - intros base build E H. unfold comparable_version. rewrite E. simpl.
    rewrite (split_once_first _ _ _ H). reflexivity.
  - unfold parse_version_string. fold clean.
    destruct (version_parse (comparable_version clean)); reflexivity.
Qed.

Lemma parse_version_string_pipeline_witness :
  comparable_version (clean_version "v3.5.1.368_25010326") = "3.5.1.368.25010326"
  /\ parse_version_string Packaging.version_parse (PStr "v3.5.1.368_25010326")
     = Ok (Structured [3; 5; 1; 368; 25010326]%N).
Proof.
  destruct (parse_version_string_pipeline Packaging.version_parse
              "v3.5.1.368_25010326") as (_ & _ & Hrewrite & Hparse).
  split.
  - apply (Hrewrite "3.5.1.368" "25010326"); reflexivity.
  - exact Hparse.
Defined.

(** C3 as stated fails.  On [beta_v2] the code removes the inner [v] and
    returns the opaque [beta_2], where stripping only a leading [v] gives
    [beta_v2]; on [1_2_3], with two underscores, the code still rewrites
    the first one. *)
Lemma parse_version_string_counterexample :
  parse_version_string Packaging.version_parse (PStr "beta_v2")
  = Ok (Opaque "beta_2")
  /\ spec_parse_version_string Packaging.version_parse "beta_v2"
     = Opaque "beta_v2"
  /\ parse_version_string Packaging.version_parse (PStr "beta_v2")
     <> Ok (spec_parse_version_string Packaging.version_parse "beta_v2")
  /\ comparable_version (clean_version "1_2_3") = "1.2_3"
  /\ spec_comparable (spec_normalize "1_2_3") = "1_2_3".
Proof.
  repeat split. vm_compute. discriminate.
Qed.

(** ** C4: which match the scraping fall-backs return *)

Lemma compare_le_lt_trans a :
  forall b c,
    String.compare a b <> Gt -> String.compare b c = Lt ->
    String.compare a c = Lt.
Proof.
  induction a as [|x a IH]; intros [|y b] [|z c]; simpl;
    try congruence; try discriminate.
  unfold Ascii.compare.
  destruct (N.compare (N_of_ascii x) (N_of_ascii y)) eqn:Hxy.
  - apply N.compare_eq_iff in Hxy. rewrite Hxy.
    destruct (N.compare (N_of_ascii y) (N_of_ascii z)); try congruence.
    apply IH.
  - intros _.
    destruct (N.compare (N_of_ascii y) (N_of_ascii z)) eqn:Hyz; try discriminate.
    + apply N.compare_eq_iff in Hyz. rewrite <- Hyz, Hxy. reflexivity.
    + intros _. apply N.compare_lt_iff in Hxy. apply N.compare_lt_iff in Hyz.
      pose proof (N.lt_trans _ _ _ Hxy Hyz) as H.
      apply N.compare_lt_iff in H. rewrite H. reflexivity.
  - congruence.
Qed.

Lemma ltb_trans a b c :
  String.ltb a b = true -> String.ltb b c = true -> String.ltb a c = true.
Proof.
  unfold String.ltb. intros Hab Hbc.
  destruct (String.compare a b) eqn:E1; try discriminate.
  destruct (String.compare b c) eqn:E2; try discriminate.
  rewrite (compare_le_lt_trans a b c); [reflexivity | congruence | exact E2].
Qed.

Lemma ltb_not_lt_trans a y r :
  String.ltb a y = false -> String.ltb a r = true -> String.ltb y r = true.
Proof.
  unfold String.ltb. intros Hay Har.
  destruct (String.compare a r) eqn:E2; try discriminate.
  rewrite (compare_le_lt_trans y a r); [reflexivity | | exact E2].
  rewrite String.compare_antisym.
  destruct (String.compare a y); simpl; congruence.
Qed.

Lemma first_greatest_head_ge l x m :
  first_greatest (x :: l) m ->
  x = m \/ String.ltb (digit_string x) (digit_string m) = true.
Proof.
  intros (before & after & E & Hb & Ha).
  destruct before as [|b before]; simpl in E; injection E as -> E.
  - left. reflexivity.
  - right. inversion Hb; assumption.
Qed.

Lemma max_loop_first_greatest rest :
  forall item,
    exists m,
      max_loop digits_key (map PStr rest) (PStr item) (PStr (digit_string item))
      = Ok (PStr m)
      /\ first_greatest (item :: rest) m.
Proof.
  induction rest as [|y rest IH]; intros item.
  - exists item. split; [reflexivity|]. exists [], []. repeat split; constructor.
  - simpl. fold (digit_string y).
    destruct (String.ltb (digit_string item) (digit_string y)) eqn:Hlt.
    + destruct (IH y) as (m & Hrun & Hfirst). exists m. split; [exact Hrun|].
      destruct (first_greatest_head_ge _ _ _ Hfirst) as [Heq|Hym].
      * subst m. destruct Hfirst as (before & after & E & Hb & Ha).
        exists (item :: before), after. rewrite E. repeat split; auto.
      * destruct Hfirst as (before & after & E & Hb & Ha).
        exists (item :: before), after. rewrite E. repeat split; auto.
        constructor; [|exact Hb]. exact (ltb_trans _ _ _ Hlt Hym).
    + destruct (IH item) as (m & Hrun & Hfirst). exists m. split; [exact Hrun|].
      destruct Hfirst as (before & after & E & Hb & Ha).
      destruct before as [|b before]; simpl in E; injection E as -> E.
      * exists [], (y :: rest). subst after. repeat split; auto.
      * exists (b :: y :: before), after. subst rest. repeat split; auto.
        inversion Hb as [|? ? Hbm Hrest]; subst.
        constructor; [exact Hbm|]. constructor; [|exact Hrest].
        exact (ltb_not_lt_trans _ _ _ Hlt Hbm).
Qed.

Lemma findall_empty_long_matches p html :
  Re.findall true p html = [] -> long_matches p html = [].
Proof. unfold long_matches. intros ->. reflexivity. Qed.

Lemma html_loop_selection patterns html :
  (Forall (fun p => long_matches p html = []) patterns
   /\ html_loop patterns html = Ok PNone)
  \/ exists skipped p later m,
       patterns = skipped ++ p :: later
       /\ Forall (fun q => long_matches q html = []) skipped
       /\ first_greatest (long_matches p html) m
       /\ html_loop patterns html = Ok (PStr m).
Proof.
  induction patterns as [|p patterns IH].
  - left. split; [constructor | reflexivity].
  - assert (Hskip : long_matches p html = [] ->
                    html_loop (p :: patterns) html = html_loop patterns html).
    { unfold long_matches. cbn [html_loop].
      destruct (Re.findall true p html); [reflexivity|].
      intros ->. reflexivity. }
    destruct (long_matches p html) as [|item rest] eqn:Hlong.
    + rewrite (Hskip eq_refl).
      destruct IH as [[Hall Hnone]|(skipped & q & later & m & E & Hs & Hm & Hrun)].
      * left. split; [constructor; assumption | exact Hnone].
      * right. exists (p :: skipped), q, later, m. rewrite E.
        split; [reflexivity|]. split; [constructor; assumption|].
        split; [exact Hm | rewrite <- E; exact Hrun].
    + right. exists [], p, patterns.
      destruct (max_loop_first_greatest rest item) as (m & Hrun & Hfirst).
      exists m. rewrite Hlong. repeat split; auto.
      unfold long_matches in Hlong. cbn [html_loop].
      destruct (Re.findall true p html) as [|a l]; [discriminate|].
      rewrite Hlong. unfold py_max. simpl. exact Hrun.
Qed.

Lemma first_match_selection patterns body :
  match first_match patterns body with
  | None => Forall (fun p => Re.findall true p body = []) patterns
  | Some m =>
      exists skipped p later rest,
        patterns = skipped ++ p :: later
        /\ Forall (fun q => Re.findall true q body = []) skipped
        /\ Re.findall true p body = m :: rest
  end.
Proof.
  induction patterns as [|p patterns IH]; simpl.
  - constructor.
  - destruct (Re.findall true p body) as [|m rest] eqn:Hp.
    + destruct (first_match patterns body) as [m|].
      * destruct IH as (skipped & q & later & rest & E & Hs & Hq).
        exists (p :: skipped), q, later, rest. rewrite E. repeat split; auto.
      * constructor; assumption.
    + exists [], p, patterns, rest. repeat split; auto.
Qed.



(** ** Runs of the three strategies *)

Section Runs.

Variable net : network.

(** The API strategy sends its one request and returns normally. *)
Lemma get_reolink_firmware_api_run product_id hardware_id tr :
  exists v,
    get_reolink_firmware_api net product_id hardware_id tr
    = (Ok v, tr ++ [api_request product_id hardware_id]).
Proof.
  unfold get_reolink_firmware_api, try_except, bind, send, lift, ret.
  destruct (net tr (api_request product_id hardware_id)) as [response|e].
  - destruct (status_code response =? 200).
    + destruct (json response) as [data|e].
      * destruct (extract_version_from_api_response data) as [v|e]; eauto.
      * eauto.
    + eauto.
  - eauto.
Qed.

(** A guarded attempt of the form strategy sends its one request and
    passes on either a non-empty version or nothing. *)
Lemma form_attempt_run r tr :
  exists o,
    form_attempt net r tr = (Ok o, tr ++ [r])
    /\ match o with Some v => truthy v = true | None => True end.
Proof.
  unfold form_attempt, try_except, bind, send, lift, ret.
  destruct (net tr r) as [response|e].
  - destruct (status_code response =? 200).
    + destruct (extract_version_from_html (text response)) as [v|e].
      * destruct (truthy v) eqn:Hv; eexists; split; eauto. exact I.
      * eexists; split; eauto. exact I.
    + eexists; split; eauto. exact I.
  - eexists; split; eauto. exact I.
Qed.

(** The form strategy sends the page request, then at most the POST and
    the site search, and returns normally. *)
Lemma simulate_form_search_run model hardware_version tr :
  exists v sent,
    simulate_form_search net model hardware_version tr
    = (Ok v, tr ++ form_page_request :: sent)
    /\ (truthy v = true \/ v = PNone)
    /\ (sent = []
        \/ sent = [form_post_request model hardware_version]
        \/ sent = [form_post_request model hardware_version;
                   sitesearch_request model]).
Proof.
  unfold simulate_form_search, try_except at 1, bind at 1, send at 1.
  destruct (net tr form_page_request) as [response|e].
  - destruct (status_code response =? 200); simpl.
    + unfold bind at 1.
      destruct (form_attempt_run (form_post_request model hardware_version)
                  (tr ++ [form_page_request])) as (o & Hrun & Ho).
      rewrite Hrun. destruct o as [v|].
      * exists v, [form_post_request model hardware_version].
        unfold ret. rewrite <- app_assoc. simpl. auto.
      * unfold bind at 1.
        destruct (form_attempt_run (sitesearch_request model)
                    ((tr ++ [form_page_request])
                       ++ [form_post_request model hardware_version]))
          as (o & Hrun' & Ho').
        rewrite Hrun'. unfold ret. rewrite <- !app_assoc. simpl.
        destruct o as [v|].
        -- exists v. eexists. split; [reflexivity|]. auto.
        -- exists PNone. eexists. split; [reflexivity|]. auto.
    + exists PNone, []. unfold ret. auto.
  - exists PNone, []. unfold ret. auto.
Qed.

(** The direct strategy probes the URLs in order, stops at the first page
    with a match, and returns normally. *)
Lemma direct_loop_run urls :
  forall tr,
    exists v n,
      direct_loop net urls tr
      = (Ok v, tr ++ map direct_request (firstn n urls)).
Proof.
  induction urls as [|url urls IH]; intros tr.
  - exists PNone, O. simpl. unfold ret. rewrite app_nil_r. reflexivity.
  - cbn [direct_loop]. unfold bind at 1, try_except, bind at 1, send, ret.
    assert (Hnext : exists v n,
               direct_loop net urls (tr ++ [direct_request url])
               = (Ok v, tr ++ map direct_request (firstn n (url :: urls)))).
    { destruct (IH (tr ++ [direct_request url])) as (v & n & Hrun).
      exists v, (S n). rewrite Hrun, <- app_assoc. reflexivity. }
    destruct (net tr (direct_request url)) as [response|e]; [|exact Hnext].
    destruct (status_code response =? 200); [|exact Hnext].
    destruct (first_match direct_patterns (text response)) as [m|]; [|exact Hnext].
    exists (PStr m), 1%nat. reflexivity.
Qed.

Lemma try_direct_download_page_run model tr :
  exists v n,
    try_direct_download_page net model tr
    = (Ok v, tr ++ map direct_request (firstn n (direct_urls model))).
Proof. apply direct_loop_run. Qed.

End Runs.

(** ** The resolver *)

Lemma sent_by_app {A : Type} (m : M A) tr r sent :
  m tr = (r, tr ++ sent) -> sent_by m tr = sent.
Proof.
  unfold sent_by. intros ->. simpl.
  induction tr as [|x tr IH]; [reflexivity | exact IH].
Qed.

Lemma ids_of_listed model hardware_version :
  in_model_mappings model hardware_version = true ->
  get_product_and_hardware_ids model hardware_version = (PInt 33, PInt 231).
Proof.
  unfold in_model_mappings, get_product_and_hardware_ids. simpl.
  destruct (String.eqb model "RLN8-410"); [|discriminate]. simpl.
  destruct (String.eqb hardware_version "N2MB02"); [reflexivity | discriminate].
Qed.

Lemma ids_of_unlisted model hardware_version :
  in_model_mappings model hardware_version = false ->
  get_product_and_hardware_ids model hardware_version = (PNone, PNone).
Proof.
  unfold in_model_mappings, get_product_and_hardware_ids. simpl.
  destruct (String.eqb model "RLN8-410"); [|reflexivity]. simpl.
  destruct (String.eqb hardware_version "N2MB02"); [discriminate | reflexivity].
Qed.

Section ResolverRuns.

Variable net : network.

(** The control flow of [search_firmware], strategy by strategy: each
    later strategy starts from the trace the earlier one left, and runs
    only when every earlier one came back empty-handed. *)
Lemma search_firmware_run model hardware_version tr :
  exists v1 t1,
    (if in_model_mappings model hardware_version
     then get_reolink_firmware_api net (PInt 33) (PInt 231) tr = (Ok v1, t1)
     else v1 = PNone /\ t1 = tr)
    /\ if truthy v1
       then search_firmware net model hardware_version tr = (Ok v1, t1)
       else
         exists v2 t2,
           simulate_form_search net model hardware_version t1 = (Ok v2, t2)
           /\ if truthy v2
              then search_firmware net model hardware_version tr = (Ok v2, t2)
              else
                exists v3 t3,
                  try_direct_download_page net model t2 = (Ok v3, t3)
                  /\ search_firmware net model hardware_version tr
                     = (Ok (if truthy v3 then v3 else PNone), t3).
Proof.
  assert (Hfallback :
            forall t1,
              exists v2 t2,
                simulate_form_search net model hardware_version t1 = (Ok v2, t2)
                /\ if truthy v2
                   then (version <- simulate_form_search net model hardware_version ;;
                         if truthy version then ret version else
                         version <- try_direct_download_page net model ;;
                         if truthy version then ret version else ret PNone)%http t1
                        = (Ok v2, t2)
                   else
                     exists v3 t3,
                       try_direct_download_page net model t2 = (Ok v3, t3)
                       /\ (version <- simulate_form_search net model hardware_version ;;
                           if truthy version then ret version else
                           version <- try_direct_download_page net model ;;
                           if truthy version then ret version else ret PNone)%http t1
                          = (Ok (if truthy v3 then v3 else PNone), t3)).
  { intros t1.
    destruct (simulate_form_search_run net model hardware_version t1)
      as (v2 & sent & Hform & _ & _).
    exists v2, (t1 ++ form_page_request :: sent). split; [exact Hform|].
    destruct (truthy v2) eqn:Hv2.
    { unfold bind at 1. rewrite Hform, Hv2. reflexivity. }
    destruct (try_direct_download_page_run net model (t1 ++ form_page_request :: sent))
      as (v3 & n & Hdirect).
    eexists. eexists. split; [exact Hdirect|].
    unfold bind at 1. rewrite Hform, Hv2.
    unfold bind at 1. rewrite Hdirect.
    destruct (truthy v3); reflexivity. }
  destruct (in_model_mappings model hardware_version) eqn:Hlisted.
  - destruct (get_reolink_firmware_api_run net (PInt 33) (PInt 231) tr) as (v1 & Hapi).
    exists v1. eexists. split; [exact Hapi|].
    destruct (truthy v1) eqn:Hv1.
    + unfold search_firmware. rewrite (ids_of_listed _ _ Hlisted). simpl.
      unfold bind at 1, bind at 1. rewrite Hapi, Hv1. reflexivity.
    + destruct (Hfallback (tr ++ [api_request (PInt 33) (PInt 231)]))
        as (v2 & t2 & Hform & H).
      assert (E : search_firmware net model hardware_version tr
                  = (version <- simulate_form_search net model hardware_version ;;
                     if truthy version then ret version else
                     version <- try_direct_download_page net model ;;
                     if truthy version then ret version else ret PNone)%http
                    (tr ++ [api_request (PInt 33) (PInt 231)])).
      { unfold search_firmware. rewrite (ids_of_listed _ _ Hlisted). simpl.
        unfold bind at 1, bind at 1. rewrite Hapi, Hv1. reflexivity. }
      rewrite E. exists v2, t2. split; [exact Hform | exact H].
  - exists PNone, tr. split; [split; reflexivity|]. simpl.
    destruct (Hfallback tr) as (v2 & t2 & Hform & H).
    assert (E : search_firmware net model hardware_version tr
                = (version <- simulate_form_search net model hardware_version ;;
                   if truthy version then ret version else
                   version <- try_direct_download_page net model ;;
                   if truthy version then ret version else ret PNone)%http tr).
    { unfold search_firmware. rewrite (ids_of_unlisted _ _ Hlisted). reflexivity. }
    rewrite E. exists v2, t2. split; [exact Hform | exact H].
Qed.

(** The resolver returns normally, with a non-empty version or [None]. *)
Lemma search_firmware_returns model hardware_version tr :
  exists v tr',
    search_firmware net model hardware_version tr = (Ok v, tr')
    /\ (truthy v = true \/ v = PNone).
Proof.
  destruct (search_firmware_run model hardware_version tr)
    as (v1 & t1 & _ & H).
  destruct (truthy v1) eqn:Hv1; [eauto 6|].
  destruct H as (v2 & t2 & _ & H).
  destruct (truthy v2) eqn:Hv2; [eauto 6|].
  destruct H as (v3 & t3 & _ & H).
  destruct (truthy v3) eqn:Hv3; eauto 6.
Qed.

End ResolverRuns.

Lemma Forall_firstn_of {A : Type} (P : A -> Prop) n :
  forall l, Forall P l -> Forall P (firstn n l).
Proof.
  induction n as [|n IH]; intros l H; simpl; [constructor|].
  destruct H; constructor; auto.
Qed.

Lemma form_requests_not_api model hardware_version sent :
  sent = []
  \/ sent = [form_post_request model hardware_version]
  \/ sent = [form_post_request model hardware_version; sitesearch_request model] ->
  Forall (fun r => req_url r <> api_url) (form_page_request :: sent).
Proof.
  intros [->|[->| ->]]; repeat constructor; simpl; discriminate.
Qed.

Lemma direct_requests_not_api model n :
  Forall (fun r => req_url r <> api_url)
         (map direct_request (firstn n (direct_urls model))).
Proof.
  apply Forall_map. apply Forall_firstn_of.
  repeat constructor; simpl; discriminate.
Qed.

(** What the resolver sends for a pair that is not in the table. *)
Lemma search_firmware_unlisted_sent net model hardware_version tr :
  in_model_mappings model hardware_version = false ->
  Forall (fun r => req_url r <> api_url)
         (sent_by (search_firmware net model hardware_version) tr).
Proof.
  intros Hunlisted.
  destruct (search_firmware_run net model hardware_version tr)
    as (v1 & t1 & Hapi & H).
  rewrite Hunlisted in Hapi. destruct Hapi as [-> ->]. simpl in H.
  destruct H as (v2 & t2 & Hform & H).
  destruct (simulate_form_search_run net model hardware_version tr)
    as (v2' & sent & Hform' & _ & Hsent).
  rewrite Hform' in Hform. injection Hform as -> <-.
  pose proof (form_requests_not_api _ _ _ Hsent) as Hf.
  destruct (truthy v2).
  - rewrite (sent_by_app _ _ _ _ H). exact Hf.
  - destruct H as (v3 & t3 & Hdirect & H).
    destruct (try_direct_download_page_run net model (tr ++ form_page_request :: sent))
      as (v3' & n & Hdirect').
    rewrite Hdirect' in Hdirect. injection Hdirect as -> <-.
    rewrite <- app_assoc in H. rewrite (sent_by_app _ _ _ _ H).
    apply Forall_app. split; [exact Hf | apply direct_requests_not_api].
Qed.

(** ** C5: the order of the strategies *)

(** C5.  For every model and hardware version the resolver runs the API
    strategy first (only when the pair is in the mapping table), then the
    form simulation, then the direct download pages; each strategy starts
    where the previous one stopped, the first non-empty result is
    returned and nothing is sent after it.  For a pair that is not in the
    table the look-up gives [(None, None)] and no request goes to the API
    endpoint. *)
Theorem search_firmware_strategy_order
  (net : network) (model hardware_version : string) (tr : trace) :
  (if in_model_mappings model hardware_version
   then get_product_and_hardware_ids model hardware_version = (PInt 33, PInt 231)
   else get_product_and_hardware_ids model hardware_version = (PNone, PNone)
        /\ Forall (fun r => req_url r <> api_url)
                  (sent_by (search_firmware net model hardware_version) tr))
  /\ exists v1 t1,
       (if in_model_mappings model hardware_version
        then get_reolink_firmware_api net (PInt 33) (PInt 231) tr = (Ok v1, t1)
        else v1 = PNone /\ t1 = tr)
       /\ if truthy v1
          then search_firmware net model hardware_version tr = (Ok v1, t1)
          else
            exists v2 t2,
              simulate_form_search net model hardware_version t1 = (Ok v2, t2)
              /\ if truthy v2
                 then search_firmware net model hardware_version tr = (Ok v2, t2)
                 else
                   exists v3 t3,
                     try_direct_download_page net model t2 = (Ok v3, t3)
                     /\ search_firmware net model hardware_version tr
                        = (Ok (if truthy v3 then v3 else PNone), t3).
Proof.
  split.
  - destruct (in_model_mappings model hardware_version) eqn:Hlisted.
    + apply ids_of_listed; exact Hlisted.
    + split; [apply ids_of_unlisted; exact Hlisted|].
      apply search_firmware_unlisted_sent; exact Hlisted.
  - apply search_firmware_run.
Qed.

(** ** C9: the timeouts of the requests *)

(** C9 fails on the form simulation.  The requests of the API strategy
    and of the direct download pages carry a timeout of 10 seconds; the
    form simulation always sends its first request, and every one it
    sends after it, with no timeout at all. *)
Theorem form_search_requests_lack_timeout
  (net : network) (model hardware_version : string)
  (product_id hardware_id : pyval) (tr : trace) :
  Forall (fun r => req_timeout r = Some 10)
         (sent_by (get_reolink_firmware_api net product_id hardware_id) tr)
  /\ Forall (fun r => req_timeout r = Some 10)
            (sent_by (try_direct_download_page net model) tr)
  /\ exists sent,
       sent_by (simulate_form_search net model hardware_version) tr
       = form_page_request :: sent
       /\ Forall (fun r => req_timeout r = None) (form_page_request :: sent).
Proof.
  split; [|split].
  - destruct (get_reolink_firmware_api_run net product_id hardware_id tr) as (v & H).
    rewrite (sent_by_app _ _ _ _ H). repeat constructor.
  - destruct (try_direct_download_page_run net model tr) as (v & n & H).
    rewrite (sent_by_app _ _ _ _ H).
    apply Forall_map. apply Forall_firstn_of. repeat constructor.
  - destruct (simulate_form_search_run net model hardware_version tr)
      as (v & sent & H & _ & Hsent).
    exists sent. rewrite (sent_by_app _ _ _ _ H). split; [reflexivity|].
    destruct Hsent as [->|[->| ->]]; repeat constructor.
Qed.

(** On a server that answers 404 to everything the resolver sends five
    requests for the default device; the second one, the form page, has
    no timeout. *)
Example search_firmware_not_found_trace :
  map req_timeout (sent_by (search_firmware not_found "RLN8-410" "N2MB02") [])
  = [Some 10; None; Some 10; Some 10; Some 10].
Proof. reflexivity. Qed.

(** ** C6: the resolver does not raise *)









(** ** C7: the exit status of the automatic check *)

Section ExitStatus.

Variable net : network.
Context {Version : Type}.
Variable version_parse : string -> option Version.
Variable version_compare : Version -> Version -> comparison.

Lemma check_for_updates_run model hardware_version current_version tr v tr' :
  search_firmware net model hardware_version tr = (Ok v, tr') ->
  check_for_updates net version_parse version_compare
                    model hardware_version current_version tr
  = (Ok (truthy v
         && fst (compare_versions version_parse version_compare current_version v)),
     tr').
Proof.
  intros H. unfold check_for_updates, bind. rewrite H.
  destruct (truthy v); [|reflexivity]. simpl.
  destruct (compare_versions version_parse version_compare current_version v).
  reflexivity.
Qed.

Lemma present_nonempty s : s <> "" -> present (Some s) = true.
Proof. intros H. unfold present. apply truthy_str. exact H. Qed.

End ExitStatus.

(** C7.  The automatic check ends the process with status 1 when
    [check_for_updates] reports an update and with status 0 when it does
    not; it never ends on an uncaught exception.  An update is reported
    exactly when the resolver found a version and the comparator says it
    is newer, so a failed look-up gives status 0.  A run with a complete
    configuration and no command-line argument is the automatic check. *)
Theorem automatic_check_exit_status
  (net : network) {Version : Type}
  (version_parse : string -> option Version)
  (version_compare : Version -> Version -> comparison)
  (model hardware_version current_version : string) (tr : trace) :
  let check := check_for_updates net version_parse version_compare
                 model hardware_version current_version tr in
  let auto := automatic_check net version_parse version_compare
                model hardware_version current_version tr in
  ((fst check = Ok true /\ fst auto = Exit 1)
   \/ (fst check = Ok false /\ fst auto = Exit 0))
  /\ snd auto = snd check
  /\ (forall v tr',
        search_firmware net model hardware_version tr = (Ok v, tr') ->
        fst check
        = Ok (truthy v
              && fst (compare_versions version_parse version_compare
                                       current_version v)))
  /\ (forall v tr',
        search_firmware net model hardware_version tr = (Ok v, tr') ->
        truthy v = false -> auto = (Exit 0, tr'))
  /\ (forall device_config program stdin,
        lookup "model" device_config = Some model ->
        lookup "hardware_version" device_config = Some hardware_version ->
        lookup "current_firmware_version" device_config = Some current_version ->
        model <> "" -> hardware_version <> "" -> current_version <> "" ->
        main net version_parse version_compare device_config [program] stdin tr
        = auto).
Proof.
  intros check auto.
  destruct (search_firmware_returns net model hardware_version tr)
    as (v & tr' & Hsearch & _).
  pose proof (check_for_updates_run net version_parse version_compare
                model hardware_version current_version tr v tr' Hsearch) as Hcheck.
  fold check in Hcheck.
  assert (Hauto : auto = (if truthy v
                             && fst (compare_versions version_parse version_compare
                                                      current_version v)
                          then Exit 1 else Exit 0, tr')).
  { unfold auto, automatic_check. fold check. rewrite Hcheck. reflexivity. }
  split; [|split; [|split; [|split]]].
  - rewrite Hcheck, Hauto. simpl.
    destruct (truthy v && fst (compare_versions version_parse version_compare
                                                current_version v)); auto.
  - rewrite Hcheck, Hauto. reflexivity.
  - intros w tw Hw. rewrite Hsearch in Hw. injection Hw as <- <-.
    rewrite Hcheck. reflexivity.
  - intros w tw Hw Hfalsy. rewrite Hsearch in Hw. injection Hw as <- <-.
    rewrite Hauto, Hfalsy. reflexivity.
  - intros device_config program stdin Hm Hh Hc Hmne Hhne Hcne.
    unfold main. rewrite Hm, Hh, Hc.
    rewrite (present_nonempty _ Hmne), (present_nonempty _ Hhne),
      (present_nonempty _ Hcne).
    reflexivity.
Qed.

Lemma automatic_check_exit_status_witness :
  main mock_api Packaging.version_parse Packaging.version_compare
       [ ("model", "RLN8-410"); ("hardware_version", "N2MB02");
         ("current_firmware_version", "v3.5.1.368_25010324") ]
       [ "reolink_firmware_check.py" ] [] []
  = (Exit 1, [ api_request (PInt 33) (PInt 231) ])
  /\ automatic_check offline Packaging.version_parse Packaging.version_compare
       "RLN8-410" "N2MB02" "v3.5.1.368_25010324" []
     = (Exit 0,
        [ api_request (PInt 33) (PInt 231); form_page_request;
          direct_request "https://reolink.com/download-center/rln8-410/";
          direct_request "https://reolink.com/download/rln8-410/";
          direct_request "https://reolink.com/support/download/rln8-410/" ]).
Proof.
  split.
  - destruct (automatic_check_exit_status mock_api
                Packaging.version_parse Packaging.version_compare
                "RLN8-410" "N2MB02" "v3.5.1.368_25010324" [])
      as (_ & _ & _ & _ & Hmain).
    rewrite (Hmain [ ("model", "RLN8-410"); ("hardware_version", "N2MB02");
                     ("current_firmware_version", "v3.5.1.368_25010324") ]
                   "reolink_firmware_check.py" []);
      try reflexivity; discriminate.
  - destruct (automatic_check_exit_status offline
                Packaging.version_parse Packaging.version_compare
                "RLN8-410" "N2MB02" "v3.5.1.368_25010324" [])
      as (_ & _ & _ & Hfailed & _).
    apply (Hfailed PNone); reflexivity.
Defined.

(* ================================================================= *)
(** * The repository's tests, replayed on the model *)

(** [test_parse_version_with_build_number] *)
Example test_parse_version_with_build_number :
  parse_version_string Packaging.version_parse (PStr "v3.5.1.368_25010326")
  = Ok (Structured [3; 5; 1; 368; 25010326]%N)
  /\ parse_version_string Packaging.version_parse (PStr "3.5.1.368_25010326")
     = parse_version_string Packaging.version_parse (PStr "v3.5.1.368_25010326").
Proof. split; reflexivity. Qed.

(** [test_parse_version_without_build_number] *)
Example test_parse_version_without_build_number :
  parse_version_string Packaging.version_parse (PStr "v3.5.1")
  = Ok (Structured [3; 5; 1]%N).
Proof. reflexivity. Qed.

(** [test_version_comparison_build_numbers] *)
Example test_version_comparison_build_numbers :
  compare_versions Packaging.version_parse Packaging.version_compare
                   "v3.5.1.368_25010324" (PStr "v3.5.1.368_25010326")
  = (true, msg_new "v3.5.1.368_25010324" "v3.5.1.368_25010326").
Proof. reflexivity. Qed.

(** [test_version_comparison_same_versions] *)
Example test_version_comparison_same_versions :
  compare_versions Packaging.version_parse Packaging.version_compare
                   "v3.5.1.368_25010326" (PStr "v3.5.1.368_25010326")
  = (false, msg_same "v3.5.1.368_25010326").
Proof. reflexivity. Qed.

(** [test_version_comparison_major_difference] *)
Example test_version_comparison_major_difference :
  fst (compare_versions Packaging.version_parse Packaging.version_compare
                        "v3.4.0.293_24010832" (PStr "v3.5.1.368_25010326"))
  = true.
Proof. reflexivity. Qed.

(** [test_version_comparison_newer_current] *)
Example test_version_comparison_newer_current :
  compare_versions Packaging.version_parse Packaging.version_compare
                   "v3.6.0.400_26010101" (PStr "v3.5.1.368_25010326")
  = (false,
     "Your version v3.6.0.400_26010101 is newer than listed v3.5.1.368_25010326").
Proof. reflexivity. Qed.

(** [test_api_response_parsing] *)
Example test_api_response_parsing :
  extract_version_from_api_response (PDict mock_response)
  = Ok (PStr "v3.5.1.368_25010326").
Proof. reflexivity. Qed.

(** [test_api_response_parsing_empty] *)
Example test_api_response_parsing_empty :
  extract_version_from_api_response PNone = Ok PNone
  /\ extract_version_from_api_response (PDict []) = Ok PNone
  /\ extract_version_from_api_response (PDict [ ("data", PList []) ]) = Ok PNone.
Proof. repeat split. Qed.

(** [test_update_detection_with_mock] *)
Example test_update_detection_with_mock :
  fst (check_for_updates mock_api Packaging.version_parse Packaging.version_compare
         "RLN8-410" "N2MB02" "v3.5.1.368_25010324" []) = Ok true
  /\ fst (check_for_updates mock_api Packaging.version_parse Packaging.version_compare
            "RLN8-410" "N2MB02" "v3.5.1.368_25010326" []) = Ok false.
Proof. split; reflexivity. Qed.

(** [test_known_model_mapping], [test_unknown_model_mapping] *)
Example test_model_mappings :
  get_product_and_hardware_ids "RLN8-410" "N2MB02" = (PInt 33, PInt 231)
  /\ get_product_and_hardware_ids "UNKNOWN_MODEL" "UNKNOWN_HW" = (PNone, PNone).
Proof. split; reflexivity. Qed.

(** The patterns on sample text. *)
Example findall_version_with_build :
  Re.findall true Re.version_with_build
    "Firmware v3.5.1.368_25010326 and V3.4.0.293_24010832x 1.2.3_4"
  = [ "3.5.1.368_25010326"; "3.4.0.293_24010832" ].
Proof. reflexivity. Qed.

Example findall_labelled_three_part :
  Re.findall true (Re.labelled_three_part "Version")
    "VERSION:  v3.5.1.368 version 1.2 Version: 10.20.30"
  = [ "v3.5.1"; "10.20.30" ].
Proof. reflexivity. Qed.

Example findall_labelled_four_part :
  Re.findall true (Re.labelled_four_part "Download")
    "download: :v1.22.3.4.5"
  = [ "1.22.3.4" ].
Proof. reflexivity. Qed.

(** A version that is not a string: the comparator catches the
    [AttributeError] and reports no update. *)
Example compare_versions_non_string :
  compare_versions Packaging.version_parse Packaging.version_compare
                   "v3.5.1.368_25010326" (PInt 5)
  = (false, "Error comparing versions: 'int' object has no attribute 'lower'").
Proof. reflexivity. Qed.

(** [--manual]: the user answers [y] and types a newer version, then
    declines to store it. *)
Example main_manual :
  fst (main offline Packaging.version_parse Packaging.version_compare
         [ ("model", "RLN8-410"); ("hardware_version", "N2MB02");
           ("current_firmware_version", "v3.5.1.368_25010324") ]
         [ "reolink_firmware_check.py"; "--manual" ]
         [ " Y "; "v3.5.1.368_25010326"; "n" ] [])
  = Exit 1.
Proof. reflexivity. Qed.

(* ================================================================= *)
(** * Further properties of the code *)

(** ** The comparator *)








Lemma parse_non_string {Version : Type} (version_parse : string -> option Version) v :
  (forall s, v <> PStr s) ->
  parse_version_string version_parse v = Raise (AttributeError (type_name v) "lower").
Proof.
  intros H. destruct v; try reflexivity. exfalso. apply (H s). reflexivity.
Qed.

Lemma compare_versions_update_inv {Version : Type}
  (version_parse : string -> option Version)
  (version_compare : Version -> Version -> comparison) current latest :
  fst (compare_versions version_parse version_compare current latest) = true ->
  exists s, latest = PStr s /\ s <> "".
Proof.
  unfold compare_versions.
  destruct (truthy latest) eqn:Ht; simpl; [|discriminate].
  destruct latest as [| | |s| |]; simpl;
    try (destruct (version_parse (comparable_version (clean_version current)));
         simpl; discriminate).
  intros _. exists s. split; [reflexivity|].
  intros ->. discriminate.
Qed.

(** X2.  [compare_versions] reports an update only for a latest version
    that is a non-empty string.  An empty or absent one gives "Could not
    determine latest version"; any other value that is not a string (a
    number or a list from the API, say) makes [lower] raise, which is
    caught and reported as "Error comparing versions", with no update. *)
Theorem compare_versions_needs_a_string {Version : Type}
  (version_parse : string -> option Version)
  (version_compare : Version -> Version -> comparison)
  (current : string) (latest : pyval) :
  (truthy latest = false ->
   compare_versions version_parse version_compare current latest
   = (false, "Could not determine latest version"))
  /\ (truthy latest = true -> (forall s, latest <> PStr s) ->
      compare_versions version_parse version_compare current latest
      = (false, ("Error comparing versions: '" ++ type_name latest
                 ++ "' object has no attribute 'lower'")%string))
  /\ (fst (compare_versions version_parse version_compare current latest) = true ->
      exists s, latest = PStr s /\ s <> "").
Proof.
  split; [|split].
  - intros H. unfold compare_versions. rewrite H. reflexivity.
  - intros H Hns. unfold compare_versions. rewrite H. simpl.
    rewrite (parse_non_string version_parse latest Hns).
    destruct (version_parse (comparable_version (clean_version current)));
      reflexivity.
  - apply compare_versions_update_inv.
Qed.

Lemma compare_versions_needs_a_string_witness :
  compare_versions Packaging.version_parse Packaging.version_compare
                   "v3.5.1.368_25010326" PNone
  = (false, "Could not determine latest version")
  /\ compare_versions Packaging.version_parse Packaging.version_compare
                      "v3.5.1.368_25010326" (PList [PStr "v3.5.1.368_25010326"])
     = (false, "Error comparing versions: 'list' object has no attribute 'lower'")
  /\ exists s, PStr "v3.5.1.368_25010327" = PStr s /\ s <> "".
Proof.
  split; [|split].
  - apply (compare_versions_needs_a_string Packaging.version_parse
             Packaging.version_compare "v3.5.1.368_25010326" PNone).
    reflexivity.
  - apply (compare_versions_needs_a_string Packaging.version_parse
             Packaging.version_compare "v3.5.1.368_25010326"
             (PList [PStr "v3.5.1.368_25010326"])).
    + reflexivity.
    + intros s. discriminate.
  - apply (compare_versions_needs_a_string Packaging.version_parse
             Packaging.version_compare "v3.5.1.368_25010326"
             (PStr "v3.5.1.368_25010327")).
    reflexivity.
Defined.

(** X3.  When a side does not parse, the comparison degrades to the
    inequality of the raw strings, which has no direction: for two
    different non-empty strings an update is reported both from the
    first to the second and from the second to the first. *)
Theorem opaque_comparison_has_no_direction {Version : Type}
  (version_parse : string -> option Version)
  (version_compare : Version -> Version -> comparison)
  (a b : string) :
  a <> "" -> b <> "" -> a <> b ->
  version_parse (comparable_version (clean_version a)) = None
  \/ version_parse (comparable_version (clean_version b)) = None ->
  fst (compare_versions version_parse version_compare a (PStr b)) = true
  /\ fst (compare_versions version_parse version_compare b (PStr a)) = true.
Proof.
  intros Ha Hb Hab Hopaque. split.
  - rewrite (compare_versions_some_opaque _ _ _ _ Hb Hopaque). simpl.
    apply String.eqb_neq in Hab. rewrite Hab. reflexivity.
  - assert (Hopaque' :
              version_parse (comparable_version (clean_version b)) = None
              \/ version_parse (comparable_version (clean_version a)) = None)
      by (destruct Hopaque; auto).
    rewrite (compare_versions_some_opaque _ _ _ _ Ha Hopaque'). simpl.
    assert (Hba : b <> a) by congruence.
    apply String.eqb_neq in Hba. rewrite Hba. reflexivity.
Qed.

Lemma opaque_comparison_has_no_direction_witness :
  fst (compare_versions Packaging.version_parse Packaging.version_compare
                        "build-A" (PStr "build-B")) = true
  /\ fst (compare_versions Packaging.version_parse Packaging.version_compare
                           "build-B" (PStr "build-A")) = true.
Proof.
  apply (opaque_comparison_has_no_direction Packaging.version_parse
           Packaging.version_compare "build-A" "build-B");
    try discriminate.
  left. reflexivity.
Defined.

Lemma packaging_compare_antisym a b :
  Packaging.version_compare a b = CompOpp (Packaging.version_compare b a).
Proof.
  destruct (Packaging.version_compare b a) eqn:E; simpl.
  - apply version_compare_eq. apply version_compare_eq in E.
    intros i. symmetry. apply E.
  - apply version_compare_gt. apply version_compare_lt in E. exact E.
  - apply version_compare_lt. apply version_compare_gt in E. exact E.
Qed.

Lemma packaging_compare_refl a : Packaging.version_compare a a = Eq.
Proof. apply version_compare_eq. intros i. reflexivity. Qed.

(** X4.  When both strings parse and the library's order is
    antisymmetric, the comparator has a direction: if it reports an
    update from [a] to [b], then asked the other way round it reports no
    update and says that [b] is newer than the listed [a]. *)
Theorem structured_comparison_has_a_direction {Version : Type}
  (version_parse : string -> option Version)
  (version_compare : Version -> Version -> comparison)
  (a b : string) (va vb : Version) :
  (forall x y, version_compare x y = CompOpp (version_compare y x)) ->
  version_parse (comparable_version (clean_version a)) = Some va ->
  version_parse (comparable_version (clean_version b)) = Some vb ->
  a <> "" -> b <> "" ->
  fst (compare_versions version_parse version_compare a (PStr b)) = true ->
  compare_versions version_parse version_compare b (PStr a)
  = (false, ("Your version " ++ b ++ " is newer than listed " ++ a)%string).
Proof.
  intros Hanti Ha Hb Hane Hbne Hup.
  rewrite (compare_versions_both_structured _ _ a b va vb Hbne Ha Hb) in Hup.
  rewrite (compare_versions_both_structured _ _ b a vb va Hane Hb Ha).
  rewrite (Hanti va vb).
  destruct (version_compare vb va); simpl in *; try discriminate. reflexivity.
Qed.

Lemma structured_comparison_has_a_direction_witness :
  compare_versions Packaging.version_parse Packaging.version_compare
                   "v3.5.1.368_25010326" (PStr "v3.4.0.293_24010832")
  = (false,
     "Your version v3.5.1.368_25010326 is newer than listed v3.4.0.293_24010832").
Proof.
  apply (structured_comparison_has_a_direction Packaging.version_parse
           Packaging.version_compare
           "v3.4.0.293_24010832" "v3.5.1.368_25010326"
           [3; 4; 0; 293; 24010832]%N [3; 5; 1; 368; 25010326]%N);
    try reflexivity; try discriminate.
  apply packaging_compare_antisym.
Defined.

(** X5.  When the library's order is reflexive, a latest version that is
    the very string of the current version is never an update, whether
    the string parses or not. *)
Theorem same_string_is_never_an_update {Version : Type}
  (version_parse : string -> option Version)
  (version_compare : Version -> Version -> comparison)
  (s : string) :
  (forall v, version_compare v v = Eq) ->
  fst (compare_versions version_parse version_compare s (PStr s)) = false.
Proof.
  intros Hrefl. unfold compare_versions.
  destruct (truthy (PStr s)); [|reflexivity]. simpl.
  destruct (version_parse (comparable_version (clean_version s))) as [v|]; simpl.
  - rewrite Hrefl. reflexivity.
  - rewrite String.eqb_refl. reflexivity.
Qed.

Lemma same_string_is_never_an_update_witness :
  fst (compare_versions Packaging.version_parse Packaging.version_compare
                        "v3.5.1.368_25010326" (PStr "v3.5.1.368_25010326"))
  = false.
Proof.
  apply (same_string_is_never_an_update Packaging.version_parse
           Packaging.version_compare "v3.5.1.368_25010326").
  apply packaging_compare_refl.
Defined.

(** ** The API strategy *)

(** X6.  The API strategy hands back a version only when the server
    answered 200 with a body that decodes as JSON and from which the
    extraction step returned that version without raising; every other
    course (connection error, another status, undecodable body, an
    exception in the extraction) ends in [None]. *)
Theorem api_version_comes_from_a_200 (net : network)
  (product_id hardware_id : pyval) (tr : trace) (v : pyval) :
  fst (get_reolink_firmware_api net product_id hardware_id tr) = Ok v ->
  v <> PNone ->
  exists response data,
    net tr (api_request product_id hardware_id) = Ok response
    /\ status_code response = 200
    /\ json response = Ok data
    /\ extract_version_from_api_response data = Ok v.
Proof.
  unfold get_reolink_firmware_api, try_except, bind, send, lift, ret.
  destruct (net tr (api_request product_id hardware_id)) as [response|e];
    simpl; [|intros [= <-]; congruence].
  destruct (status_code response =? 200) eqn:Hs;
    simpl; [|intros [= <-]; congruence].
  destruct (json response) as [data|e] eqn:Hj;
    simpl; [|intros [= <-]; congruence].
  destruct (extract_version_from_api_response data) as [w|e] eqn:Hx;
    simpl; [|intros [= <-]; congruence].
  intros [= <-] _. exists response, data.
  apply Z.eqb_eq in Hs. auto.
Qed.

Lemma api_version_comes_from_a_200_witness :
  exists response data,
    mock_api [] (api_request (PInt 33) (PInt 231)) = Ok response
    /\ status_code response = 200
    /\ json response = Ok data
    /\ extract_version_from_api_response data = Ok (PStr "v3.5.1.368_25010326").
Proof.
  apply (api_version_comes_from_a_200 mock_api (PInt 33) (PInt 231) []
           (PStr "v3.5.1.368_25010326")).
  - reflexivity.
  - discriminate.
Defined.

(** ** The extraction step of the API strategy *)

(** X7.  Only the first product of [data] is consulted: whatever follows
    it in the list, and whatever else the body holds, the extraction
    gives what it gives on a body made of that first product alone. *)
Theorem extract_version_reads_first_product_only
  (body : list (string * pyval)) (product : pyval) (others : list pyval) :
  dict_get "data" body = Some (PList (product :: others)) ->
  extract_version_from_api_response (PDict body)
  = extract_version_from_api_response (PDict [ ("data", PList [product]) ]).
Proof.
  intros H. unfold extract_version_from_api_response.
  rewrite (dict_get_some_truthy _ _ _ H). simpl. rewrite H. reflexivity.
Qed.

Lemma extract_version_reads_first_product_only_witness :
  extract_version_from_api_response
    (PDict [ ("result", PDict [ ("code", PInt 0) ]);
             ("data", PList [ PDict mock_product;
                              PDict [ ("firmwares", PList tied_firmwares) ] ]) ])
  = extract_version_from_api_response
      (PDict [ ("data", PList [ PDict mock_product ]) ]).
Proof.
  apply (extract_version_reads_first_product_only
           _ (PDict mock_product) [ PDict [ ("firmwares", PList tied_firmwares) ] ]).
  reflexivity.
Defined.

(** X8.  With a single firmware record no comparison takes place: the
    record's version is returned whatever its [updated_at] holds, be it
    missing, a string or a list. *)
Theorem extract_version_single_record
  (body product record : list (string * pyval)) (others : list pyval) :
  dict_get "data" body = Some (PList (PDict product :: others)) ->
  dict_get "firmwares" product = Some (PList [PDict record]) ->
  extract_version_from_api_response (PDict body)
  = Ok (version_field (PDict record)).
Proof.
  intros Hd Hf. unfold extract_version_from_api_response.
  rewrite (dict_get_some_truthy _ _ _ Hd). simpl. rewrite Hd. simpl.
  rewrite Hf. simpl.
  destruct (dict_get "version" record); reflexivity.
Qed.

Lemma extract_version_single_record_witness :
  extract_version_from_api_response
    (PDict [ ("data",
              PList [ PDict [ ("firmwares",
                               PList [ PDict [ ("version", PStr "v3.5.1.368_25010326");
                                               ("updated_at", PStr "2025-01-08") ] ]) ] ]) ])
  = Ok (PStr "v3.5.1.368_25010326").
Proof.
  apply (extract_version_single_record
           _ [ ("firmwares",
                PList [ PDict [ ("version", PStr "v3.5.1.368_25010326");
                                ("updated_at", PStr "2025-01-08") ] ]) ]
           [ ("version", PStr "v3.5.1.368_25010326");
             ("updated_at", PStr "2025-01-08") ] []);
    reflexivity.
Defined.

Section MaxFailures.

Variable key : pyval -> result pyval.

(** The scan of [max] raises as soon as the key function does. *)
Lemma max_loop_key_raises rest :
  forall item val x e0,
    In x rest -> key x = Raise e0 ->
    exists e, max_loop key rest item val = Raise e.
Proof.
  induction rest as [|y rest IH]; intros item val x e0 Hin Hx; [destruct Hin|].
  simpl. destruct (key y) as [ky|e] eqn:Hy; simpl; [|eauto].
  destruct (py_gt ky val) as [gt|e]; simpl; [|eauto].
  destruct Hin as [->|Hin]; [congruence|].
  destruct gt; eapply IH; eauto.
Qed.

(** A scan that starts from an integer key and succeeds met integer keys
    only. *)
Lemma max_loop_int_all rest :
  forall item val m r,
    as_int val = Some m ->
    max_loop key rest item val = Ok r ->
    forall x k, In x rest -> key x = Ok k -> exists a, as_int k = Some a.
Proof.
  induction rest as [|y rest IH]; intros item val m r Hval Hrun x k Hin Hk;
    [destruct Hin|].
  simpl in Hrun. destruct (key y) as [ky|] eqn:Hy; simpl in Hrun; [|discriminate].
  destruct (py_gt ky val) as [gt|] eqn:Hgt; simpl in Hrun; [|discriminate].
  destruct (py_gt_int_right _ _ _ _ Hval Hgt) as (a & Ha & _).
  destruct Hin as [->|Hin].
  - rewrite Hy in Hk. injection Hk as <-. eauto.
  - destruct gt.
    + exact (IH y ky a r Ha Hrun x k Hin Hk).
    + exact (IH item val m r Hval Hrun x k Hin Hk).
Qed.

End MaxFailures.

Lemma updated_at_non_record x :
  (forall d, x <> PDict d) ->
  updated_at x = Raise (AttributeError (type_name x) "get").
Proof.
  intros H. destruct x; try reflexivity. exfalso. apply (H d). reflexivity.
Qed.

Lemma latest_firmware_non_record firmwares x :
  In x firmwares -> (forall d, x <> PDict d) ->
  exists e, latest_firmware (PList firmwares) = Raise e.
Proof.
  intros Hin Hx. pose proof (updated_at_non_record x Hx) as Hkey.
  unfold latest_firmware, py_max. simpl.
  destruct firmwares as [|item rest]; [destruct Hin|].
  destruct Hin as [->|Hin].
  - rewrite Hkey. simpl. eauto.
  - destruct (updated_at item) as [val|e]; simpl; [|eauto].
    eapply max_loop_key_raises; eauto.
Qed.

(** X9.  A firmware list that holds anything but a record (a string, a
    number, [null]) makes the extraction step raise, since only a [dict]
    has [get]; the API strategy catches the exception and answers
    [None], having sent its one request. *)
Theorem non_record_entry_is_swallowed (net : network)
  (product_id hardware_id : pyval) (tr : trace) (response : Http.response)
  (body product : list (string * pyval)) (others firmwares : list pyval)
  (x : pyval) :
  net tr (api_request product_id hardware_id) = Ok response ->
  status_code response = 200 ->
  json response = Ok (PDict body) ->
  dict_get "data" body = Some (PList (PDict product :: others)) ->
  dict_get "firmwares" product = Some (PList firmwares) ->
  In x firmwares -> (forall d, x <> PDict d) ->
  (exists e, extract_version_from_api_response (PDict body) = Raise e)
  /\ get_reolink_firmware_api net product_id hardware_id tr
     = (Ok PNone, tr ++ [api_request product_id hardware_id]).
Proof.
  intros Hnet Hs Hj Hd Hf Hin Hx.
  assert (Hraise : exists e, extract_version_from_api_response (PDict body) = Raise e).
  { destruct (latest_firmware_non_record firmwares x Hin Hx) as (e & He).
    exists e. unfold extract_version_from_api_response.
    rewrite (dict_get_some_truthy _ _ _ Hd). simpl. rewrite Hd. simpl.
    rewrite Hf. simpl.
    destruct firmwares as [|item rest]; [destruct Hin|]. simpl.
    rewrite He. reflexivity. }
  split; [exact Hraise|]. destruct Hraise as (e & He).
  unfold get_reolink_firmware_api, try_except, bind, send, lift, ret.
  rewrite Hnet, Hs. simpl. rewrite Hj, He. reflexivity.
Qed.

Lemma non_record_entry_is_swallowed_witness :
  (exists e,
      extract_version_from_api_response
        (PDict [ ("data", PList [ PDict [ ("firmwares",
                                           PList [ PStr "v3.5.1.368_25010326" ]) ] ]) ])
      = Raise e)
  /\ get_reolink_firmware_api
       (fun _ _ =>
          Ok {| status_code := 200; text := "";
                json := Ok (PDict [ ("data",
                                     PList [ PDict [ ("firmwares",
                                                      PList [ PStr "v3.5.1.368_25010326" ]) ] ]) ]) |})
       (PInt 33) (PInt 231) []
     = (Ok PNone, [] ++ [ api_request (PInt 33) (PInt 231) ]).
Proof.
  apply (non_record_entry_is_swallowed _ (PInt 33) (PInt 231) []
           {| status_code := 200; text := "";
              json := Ok (PDict [ ("data",
                                   PList [ PDict [ ("firmwares",
                                                    PList [ PStr "v3.5.1.368_25010326" ]) ] ]) ]) |}
           _ [ ("firmwares", PList [ PStr "v3.5.1.368_25010326" ]) ] []
           [ PStr "v3.5.1.368_25010326" ] (PStr "v3.5.1.368_25010326"));
    try reflexivity.
  - left. reflexivity.
  - intros d. discriminate.
Defined.

(** X10.  Timestamps of different kinds cannot be ranked: when one record
    has an integer [updated_at] (or none, which counts as 0) and another
    has one that is not a number, such as a date written as a string,
    the selection of the latest firmware raises instead of choosing. *)
Theorem mixed_timestamps_raise (firmwares : list pyval) (x y kx ky : pyval) (n : Z) :
  In x firmwares -> In y firmwares ->
  updated_at x = Ok kx -> as_int kx = Some n ->
  updated_at y = Ok ky -> as_int ky = None ->
  exists e, latest_firmware (PList firmwares) = Raise e.
Proof.
  intros Hx Hy Hkx Hnx Hky Hny.
  destruct (latest_firmware (PList firmwares)) as [r|e] eqn:Hsel; [|eauto].
  exfalso. unfold latest_firmware, py_max in Hsel. simpl in Hsel.
  destruct firmwares as [|item rest]; [destruct Hx|].
  destruct (updated_at item) as [val|] eqn:Hitem; simpl in Hsel; [|discriminate].
  assert (Hval : exists m, as_int val = Some m).
  { destruct Hx as [->|Hx].
    - rewrite Hkx in Hitem. injection Hitem as <-. eauto.
    - eapply max_loop_int_start; eauto. }
  destruct Hval as (m & Hm).
  destruct Hy as [->|Hy].
  - rewrite Hky in Hitem. injection Hitem as <-. congruence.
  - destruct (max_loop_int_all updated_at rest item val m r Hm Hsel y ky Hy Hky)
      as (a & Ha).
    congruence.
Qed.

Lemma mixed_timestamps_raise_witness :
  exists e,
    latest_firmware
      (PList [ PDict [ ("version", PStr "v3.4.0.293_24010832") ];
               PDict [ ("version", PStr "v3.5.1.368_25010326");
                       ("updated_at", PStr "2025-01-08") ] ])
    = Raise e.
Proof.
  apply (mixed_timestamps_raise
           [ PDict [ ("version", PStr "v3.4.0.293_24010832") ];
             PDict [ ("version", PStr "v3.5.1.368_25010326");
                     ("updated_at", PStr "2025-01-08") ] ]
           (PDict [ ("version", PStr "v3.4.0.293_24010832") ])
           (PDict [ ("version", PStr "v3.5.1.368_25010326");
                    ("updated_at", PStr "2025-01-08") ])
           (PInt 0) (PStr "2025-01-08") 0).
  - left. reflexivity.
  - right. left. reflexivity.
  - reflexivity.
  - reflexivity.
  - reflexivity.
  - reflexivity.
Defined.

(** ** The patterns of the scraping fall-backs *)

Lemma take_length n : forall s, String.length (Re.take n s) = Nat.min n (String.length s).
Proof.
  induction n as [|n IH]; intros [|c s]; simpl; try reflexivity.
  rewrite IH. reflexivity.
Qed.

Section Captures.

Variable ignorecase : bool.

(** From inside the group to its closing bracket: the capture is the text
    consumed since [start], and the body consumed its least length. *)
Lemma match_to_close body :
  no_group body = true ->
  forall s start cap c rest,
    Re.match_here ignorecase (body ++ [Re.GroupClose]) s start cap = Some (c, rest) ->
    c = Re.take (String.length start - String.length rest) start
    /\ (String.length rest + min_chars body <= String.length s)%nat.
Proof.
  induction body as [|i body IH]; intros Hng s start cap c rest.
  - simpl. intros [= <- <-]. split; [reflexivity | lia].
  - destruct i as [a|a|a| |]; simpl in Hng; try discriminate;
      specialize (IH Hng).
    + simpl. destruct s as [|ch s]; [discriminate|].
      destruct (Re.atom_match ignorecase a ch); [|discriminate].
      intros H. destruct (IH _ _ _ _ _ H) as [Hc Hlen].
      split; [exact Hc | simpl; lia].
    + simpl. destruct s as [|ch s].
      * intros H. destruct (IH _ _ _ _ _ H) as [Hc Hlen]. split; [exact Hc | lia].
      * destruct (Re.atom_match ignorecase a ch).
        -- destruct (Re.match_here ignorecase (body ++ [Re.GroupClose]) s start cap)
             as [[c' rest']|] eqn:E.
           ++ intros [= <- <-]. destruct (IH _ _ _ _ _ E) as [Hc Hlen].
              split; [exact Hc | simpl; lia].
           ++ intros H. destruct (IH _ _ _ _ _ H) as [Hc Hlen].
              split; [exact Hc | lia].
        -- intros H. destruct (IH _ _ _ _ _ H) as [Hc Hlen].
           split; [exact Hc | lia].
    + simpl. induction s as [|ch s IHs]; [discriminate|].
      destruct (Re.atom_match ignorecase a ch); [|discriminate].
      match goal with
      | |- context [match ?p with Some r => Some r | None => _ end] =>
          destruct p as [[c' rest']|] eqn:E
      end.
      * intros [= <- <-]. destruct (IHs eq_refl) as [Hc Hlen].
        split; [exact Hc | simpl; lia].
      * intros H. destruct (IH _ _ _ _ _ H) as [Hc Hlen].
        split; [exact Hc | simpl; lia].
Qed.

(** A match of a pattern whose one group has body [body] captures at
    least [min_chars body] characters. *)
Lemma match_capture_length pre body :
  no_group pre = true -> no_group body = true ->
  forall s start cap c rest,
    Re.match_here ignorecase (pre ++ Re.GroupOpen :: body ++ [Re.GroupClose])
                  s start cap = Some (c, rest) ->
    (min_chars body <= String.length c)%nat.
Proof.
  intros Hpre Hbody. induction pre as [|i pre IH]; intros s start cap c rest.
  - simpl. intros H. destruct (match_to_close body Hbody _ _ _ _ _ H) as [-> Hlen].
    rewrite take_length. lia.
  - destruct i as [a|a|a| |]; simpl in Hpre; try discriminate;
      specialize (IH Hpre).
    + simpl. destruct s as [|ch s]; [discriminate|].
      destruct (Re.atom_match ignorecase a ch); [|discriminate]. apply IH.
    + simpl. destruct s as [|ch s]; [apply IH|].
      destruct (Re.atom_match ignorecase a ch); [|apply IH].
      match goal with
      | |- context [match ?p with Some r => Some r | None => _ end] =>
          destruct p as [[c' rest']|] eqn:E
      end.
      * intros [= <- <-]. exact (IH _ _ _ _ _ E).
      * apply IH.
    + simpl. induction s as [|ch s IHs]; [discriminate|].
      destruct (Re.atom_match ignorecase a ch); [|discriminate].
      match goal with
      | |- context [match ?p with Some r => Some r | None => _ end] =>
          destruct p as [[c' rest']|] eqn:E
      end.
      * intros [= <- <-]. exact (IHs eq_refl).
      * apply IH.
Qed.

(** What holds of every capture holds of every item [findall] lists. *)
Lemma scan_captures (P : string -> Prop) re :
  (forall s start cap c rest,
      Re.match_here ignorecase re s start cap = Some (c, rest) -> P c) ->
  forall s skip, Forall P (Re.scan ignorecase re s skip).
Proof.
  intros Hcap. induction s as [|ch s IH]; intros skip; simpl.
  - destruct skip; [|constructor].
    destruct (Re.match_here ignorecase re "" "" "") as [[c rest]|] eqn:E;
      [|constructor].
    constructor; [exact (Hcap _ _ _ _ _ E) | constructor].
  - destruct skip; [|apply IH].
    destruct (Re.match_here ignorecase re (String ch s) (String ch s) "")
      as [[c rest]|] eqn:E; [|apply IH].
    constructor; [exact (Hcap _ _ _ _ _ E) | apply IH].
Qed.

Lemma findall_capture_length pre body s :
  no_group pre = true -> no_group body = true ->
  Forall (fun m => (min_chars body <= String.length m)%nat)
         (Re.findall ignorecase (pre ++ Re.GroupOpen :: body ++ [Re.GroupClose]) s).
Proof.
  intros Hpre Hbody. apply scan_captures.
  intros s' start cap c rest. apply match_capture_length; assumption.
Qed.

End Captures.

Lemma filter_keeps_all {A : Type} (f : A -> bool) l :
  Forall (fun x => f x = true) l -> filter f l = l.
Proof.
  induction 1 as [|x l Hx Hl IH]; simpl; [reflexivity|].
  rewrite Hx, IH. reflexivity.
Qed.

Lemma html_matches_are_long html :
  Forall (fun p => Forall (fun m => (7 <= String.length m)%nat)
                          (Re.findall true p html))
         html_patterns.
Proof.
  repeat constructor.
  - eapply Forall_impl;
      [|exact (findall_capture_length true [Re.Opt (Re.Chr "v")]
                 (Re.four_part ++ [Re.One (Re.Chr "_"); Re.digits]) html
                 eq_refl eq_refl)].
    intros m Hm. change (9 <= String.length m)%nat in Hm.
    revert Hm. generalize (String.length m). intros n Hn. lia.
  - exact (findall_capture_length true
             (Re.lit "Version" ++ [Re.colon_or_spaces; Re.Opt (Re.Chr "v")])
             Re.four_part html eq_refl eq_refl).
  - exact (findall_capture_length true
             (Re.lit "Firmware" ++ [Re.colon_or_spaces; Re.Opt (Re.Chr "v")])
             Re.four_part html eq_refl eq_refl).
  - exact (findall_capture_length true
             (Re.lit "Download" ++ [Re.colon_or_spaces; Re.Opt (Re.Chr "v")])
             Re.four_part html eq_refl eq_refl).
Qed.

Lemma direct_matches_are_non_empty body :
  Forall (fun p => Forall (fun m => (5 <= String.length m)%nat)
                          (Re.findall true p body))
         direct_patterns.
Proof.
  repeat constructor.
  - eapply Forall_impl;
      [|exact (findall_capture_length true [Re.Opt (Re.Chr "v")]
                 (Re.four_part ++ [Re.One (Re.Chr "_"); Re.digits]) body
                 eq_refl eq_refl)].
    intros m Hm. change (9 <= String.length m)%nat in Hm.
    revert Hm. generalize (String.length m). intros n Hn. lia.
  - exact (findall_capture_length true
             (Re.lit "Version" ++ [Re.colon_or_spaces])
             (Re.Opt (Re.OneOf [Re.Chr "v"]) :: Re.three_part) body
             eq_refl eq_refl).
  - exact (findall_capture_length true
             (Re.lit "Firmware" ++ [Re.colon_or_spaces])
             (Re.Opt (Re.OneOf [Re.Chr "v"]) :: Re.three_part) body
             eq_refl eq_refl).
Qed.

Lemma long_matches_all html p :
  In p html_patterns -> long_matches p html = Re.findall true p html.
Proof.
  intros Hp. pose proof (html_matches_are_long html) as H.
  rewrite Forall_forall in H. specialize (H p Hp).
  unfold long_matches. apply filter_keeps_all.
  eapply Forall_impl; [|exact H].
  intros m Hm. cbv beta in *.
  apply (proj2 (Nat.ltb_lt 5 (String.length m))). lia.
Qed.

(** X11.  Every match of the four patterns of [extract_version_from_html]
    has at least seven characters, so its filter [len(m) > 5] never
    drops a match: the matches it ranks are all the matches. *)
Theorem length_filter_keeps_every_match (html_content : string) :
  Forall (fun p =>
            Forall (fun m => (7 <= String.length m)%nat)
                   (Re.findall true p html_content)
            /\ long_matches p html_content = Re.findall true p html_content)
         html_patterns.
Proof.
  apply Forall_forall. intros p Hp. split.
  - pose proof (html_matches_are_long html_content) as H.
    rewrite Forall_forall in H. exact (H p Hp).
  - apply long_matches_all. exact Hp.
Qed.

Lemma first_greatest_in l m : first_greatest l m -> In m l.
Proof.
  intros (before & after & -> & _). apply in_or_app. right. left. reflexivity.
Qed.

(** X12.  [extract_version_from_html] never raises.  It answers [None]
    exactly when none of its four patterns matches anywhere in the page;
    otherwise it answers one of the matches of one of the patterns, a
    string of at least seven characters. *)
Theorem extract_version_from_html_result (html_content : string) :
  (extract_version_from_html html_content = Ok PNone
   /\ Forall (fun p => Re.findall true p html_content = []) html_patterns)
  \/ exists p m,
       In p html_patterns
       /\ In m (Re.findall true p html_content)
       /\ (7 <= String.length m)%nat
       /\ extract_version_from_html html_content = Ok (PStr m).
Proof.
  destruct (html_loop_selection html_patterns html_content)
    as [[Hall Hnone]|(skipped & p & later & m & E & Hs & Hm & Hrun)].
  - left. split; [exact Hnone|].
    apply Forall_forall. intros p Hp.
    rewrite Forall_forall in Hall. rewrite <- (long_matches_all _ _ Hp).
    apply Hall. exact Hp.
  - right. exists p, m.
    assert (Hp : In p html_patterns)
      by (rewrite E; apply in_or_app; right; left; reflexivity).
    pose proof (first_greatest_in _ _ Hm) as Hin.
    rewrite (long_matches_all _ _ Hp) in Hin.
    pose proof (html_matches_are_long html_content) as Hlong.
    rewrite Forall_forall in Hlong. specialize (Hlong p Hp).
    rewrite Forall_forall in Hlong.
    repeat split; auto.
Qed.

Section DirectResults.

Variable net : network.

Lemma direct_loop_result urls :
  forall tr,
    exists v tr',
      direct_loop net urls tr = (Ok v, tr')
      /\ (v = PNone
          \/ exists m body, v = PStr m /\ first_match direct_patterns body = Some m).
Proof.
  induction urls as [|url urls IH]; intros tr.
  - exists PNone, tr. split; [reflexivity | left; reflexivity].
  - cbn [direct_loop]. unfold bind at 1, try_except, bind at 1, send, ret.
    destruct (net tr (direct_request url)) as [response|e]; [|apply IH].
    destruct (status_code response =? 200); [|apply IH].
    destruct (first_match direct_patterns (text response)) as [m|] eqn:E; [|apply IH].
    exists (PStr m). eexists. split; [reflexivity|]. right. eauto.
Qed.

End DirectResults.

(** X13.  The direct download-page strategy never raises, and what it
    returns is [None] or a string of at least five characters; a match
    it found is therefore never taken for "nothing found" by the
    resolver's test [if version:]. *)
Theorem direct_page_result_is_none_or_non_empty
  (net : network) (model : string) (tr : trace) :
  exists v tr',
    try_direct_download_page net model tr = (Ok v, tr')
    /\ (v = PNone
        \/ exists m, v = PStr m /\ (5 <= String.length m)%nat /\ truthy v = true).
Proof.
  destruct (direct_loop_result net (direct_urls model) tr)
    as (v & tr' & Hrun & Hv).
  exists v, tr'. split; [exact Hrun|].
  destruct Hv as [->|(m & body & -> & Hm)]; [left; reflexivity|].
  right. exists m. split; [reflexivity|].
  pose proof (first_match_selection direct_patterns body) as Hsel.
  rewrite Hm in Hsel. destruct Hsel as (skipped & p & later & rest & E & _ & Hp).
  pose proof (direct_matches_are_non_empty body) as Hlong.
  rewrite Forall_forall in Hlong.
  assert (Hin : In p direct_patterns)
    by (rewrite E; apply in_or_app; right; left; reflexivity).
  specialize (Hlong p Hin). rewrite Hp in Hlong.
  inversion Hlong as [|? ? Hlen _]; subst.
  split; [exact Hlen|].
  destruct m; [simpl in Hlen; lia | reflexivity].
Qed.

(** ** The direct download-page strategy *)

Section DirectProbes.

Variable net : network.

Lemma direct_loop_all_fail urls :
  (forall t url, In url urls -> probe_fails (net t (direct_request url))) ->
  forall tr,
    direct_loop net urls tr = (Ok PNone, tr ++ map direct_request urls).
Proof.
  induction urls as [|url urls IH]; intros Hfail tr.
  - simpl. unfold ret. rewrite app_nil_r. reflexivity.
  - assert (Hrest : direct_loop net urls (tr ++ [direct_request url])
                    = (Ok PNone, tr ++ map direct_request (url :: urls))).
    { rewrite IH; [|intros t u Hu; apply Hfail; right; exact Hu].
      rewrite <- app_assoc. reflexivity. }
    pose proof (Hfail tr url (or_introl eq_refl)) as Hurl.
    cbn [direct_loop]. unfold bind at 1, try_except, bind at 1, send, ret.
    destruct (net tr (direct_request url)) as [response|e]; [|exact Hrest].
    destruct (status_code response =? 200) eqn:Hs; [|exact Hrest].
    apply Z.eqb_eq in Hs. unfold probe_fails in Hurl. rewrite (Hurl Hs). exact Hrest.
Qed.

Lemma direct_loop_first_hit before :
  forall url after response m tr,
    (forall t u, In u before -> probe_fails (net t (direct_request u))) ->
    net (tr ++ map direct_request before) (direct_request url) = Ok response ->
    status_code response = 200 ->
    first_match direct_patterns (text response) = Some m ->
    direct_loop net (before ++ url :: after) tr
    = (Ok (PStr m), tr ++ map direct_request (before ++ [url])).
Proof.
  induction before as [|b before IH]; intros url after response m tr Hfail Hnet Hs Hm.
  - simpl in *. rewrite app_nil_r in Hnet.
    unfold bind at 1, try_except, bind at 1, send, ret.
    rewrite Hnet, Hs. simpl. rewrite Hm. reflexivity.
  - assert (Hrest : direct_loop net (before ++ url :: after) (tr ++ [direct_request b])
                    = (Ok (PStr m),
                       tr ++ map direct_request ((b :: before) ++ [url]))).
    { rewrite (IH url after response m (tr ++ [direct_request b])); auto.
      - rewrite <- app_assoc. reflexivity.
      - intros t u Hu. apply Hfail. right. exact Hu.
      - rewrite <- app_assoc. exact Hnet. }
    pose proof (Hfail tr b (or_introl eq_refl)) as Hb.
    cbn [direct_loop app]. unfold bind at 1, try_except, bind at 1, send, ret.
    destruct (net tr (direct_request b)) as [r|e]; [|exact Hrest].
    destruct (status_code r =? 200) eqn:Hr; [|exact Hrest].
    apply Z.eqb_eq in Hr. unfold probe_fails in Hb. rewrite (Hb Hr). exact Hrest.
Qed.

End DirectProbes.

(** X14.  When none of the three download pages brings a match (the
    request fails, the status is not 200, or the page holds no version),
    the direct strategy answers [None] after probing all three URLs, in
    the order download-center, download, support/download, each built
    from the lower-cased model. *)
Theorem direct_pages_all_fail (net : network) (model : string) (tr : trace) :
  (forall t url, In url (direct_urls model) ->
                 probe_fails (net t (direct_request url))) ->
  try_direct_download_page net model tr
  = (Ok PNone,
     tr ++ [ direct_request ("https://reolink.com/download-center/"
                             ++ Str.lower model ++ "/");
             direct_request ("https://reolink.com/download/"
                             ++ Str.lower model ++ "/");
             direct_request ("https://reolink.com/support/download/"
                             ++ Str.lower model ++ "/") ]).
Proof.
  intros Hfail. unfold try_direct_download_page.
  rewrite (direct_loop_all_fail net _ Hfail). reflexivity.
Qed.

Lemma direct_pages_all_fail_witness :
  try_direct_download_page not_found "RLN8-410" []
  = (Ok PNone,
     [] ++ [ direct_request ("https://reolink.com/download-center/"
                             ++ Str.lower "RLN8-410" ++ "/");
             direct_request ("https://reolink.com/download/"
                             ++ Str.lower "RLN8-410" ++ "/");
             direct_request ("https://reolink.com/support/download/"
                             ++ Str.lower "RLN8-410" ++ "/") ]).
Proof.
  apply (direct_pages_all_fail not_found "RLN8-410" []).
  intros t url _. simpl. discriminate.
Defined.

(** X15.  The direct strategy stops at the first page that answers 200
    and holds a match: it returns the first match of that page and sends
    nothing to the URLs after it. *)
Theorem direct_pages_stop_at_first_hit (net : network) (model : string)
  (before after : list string) (url m : string) (response : Http.response)
  (tr : trace) :
  direct_urls model = before ++ url :: after ->
  (forall t u, In u before -> probe_fails (net t (direct_request u))) ->
  net (tr ++ map direct_request before) (direct_request url) = Ok response ->
  status_code response = 200 ->
  first_match direct_patterns (text response) = Some m ->
  try_direct_download_page net model tr
  = (Ok (PStr m), tr ++ map direct_request (before ++ [url])).
Proof.
  intros E Hfail Hnet Hs Hm. unfold try_direct_download_page. rewrite E.
  apply (direct_loop_first_hit net before url after response m tr); assumption.
Qed.

Lemma direct_pages_stop_at_first_hit_witness :
  try_direct_download_page download_page_only "RLN8-410" []
  = (Ok (PStr "3.5.1.368_25010326"),
     [] ++ map direct_request
             ([ "https://reolink.com/download-center/rln8-410/" ]
                ++ [ "https://reolink.com/download/rln8-410/" ])).
Proof.
  apply (direct_pages_stop_at_first_hit download_page_only "RLN8-410"
           [ "https://reolink.com/download-center/rln8-410/" ]
           [ "https://reolink.com/support/download/rln8-410/" ]
           "https://reolink.com/download/rln8-410/" "3.5.1.368_25010326"
           {| status_code := 200;
              text := "<p>Firmware: v3.5.1.368_25010326</p>";
              json := Raise ValueError |} []).
  - reflexivity.
  - intros t u [<-|[]]. unfold probe_fails. simpl. discriminate.
  - reflexivity.
  - reflexivity.
  - reflexivity.
Defined.

(** ** The form-simulation strategy *)

(** X16.  When the download-centre page cannot be fetched (the request
    raises or the status is not 200), the form simulation gives up at
    once: it answers [None] and sends neither the POST nor the site
    search. *)
Theorem form_search_gives_up_without_page
  (net : network) (model hardware_version : string) (tr : trace) :
  match net tr form_page_request with
  | Ok response => status_code response <> 200
  | Raise _ => True
  end ->
  simulate_form_search net model hardware_version tr
  = (Ok PNone, tr ++ [form_page_request]).
Proof.
  intros H. unfold simulate_form_search, try_except at 1, bind at 1, send at 1.
  destruct (net tr form_page_request) as [response|e]; [|reflexivity].
  apply Z.eqb_neq in H. rewrite H. reflexivity.
Qed.

Lemma form_search_gives_up_without_page_witness :
  simulate_form_search not_found "RLN8-410" "N2MB02" []
  = (Ok PNone, [] ++ [form_page_request]).
Proof.
  apply (form_search_gives_up_without_page not_found "RLN8-410" "N2MB02" []).
  simpl. discriminate.
Defined.

(** X17.  When the page is there and the POST of the search form answers
    200 with a page from which a version is extracted, the form
    simulation returns that version and never calls the site search. *)
Theorem form_search_returns_post_result
  (net : network) (model hardware_version : string) (tr : trace)
  (page answer : Http.response) (version : pyval) :
  net tr form_page_request = Ok page ->
  status_code page = 200 ->
  net (tr ++ [form_page_request]) (form_post_request model hardware_version)
  = Ok answer ->
  status_code answer = 200 ->
  extract_version_from_html (text answer) = Ok version ->
  truthy version = true ->
  simulate_form_search net model hardware_version tr
  = (Ok version,
     tr ++ [form_page_request; form_post_request model hardware_version]).
Proof.
  intros Hpage Hps Hpost Has Hx Ht.
  unfold simulate_form_search, try_except at 1, bind at 1, send at 1.
  rewrite Hpage, Hps. simpl.
  unfold bind at 1, form_attempt, try_except, bind, send, lift, ret.
  rewrite Hpost, Has. simpl. rewrite Hx, Ht. rewrite <- app_assoc. reflexivity.
Qed.

Lemma form_search_returns_post_result_witness :
  simulate_form_search form_answers "RLN8-410" "N2MB02" []
  = (Ok (PStr "3.5.1.368_25010326"),
     [] ++ [form_page_request; form_post_request "RLN8-410" "N2MB02"]).
Proof.
  apply (form_search_returns_post_result form_answers "RLN8-410" "N2MB02" []
           {| status_code := 200; text := "<form action='/search'>";
              json := Raise ValueError |}
           {| status_code := 200; text := two_builds_page;
              json := Raise ValueError |}
           (PStr "3.5.1.368_25010326"));
    reflexivity.
Defined.

(** ** The resolver's requests *)

(** What the resolver sends: at most the API request, then at most the
    three requests of the form simulation, then at most the three
    probes of the direct strategy; never nothing. *)
Lemma search_firmware_sent (net : network) model hardware_version tr :
  exists api form n,
    sent_by (search_firmware net model hardware_version) tr
    = api ++ form ++ map direct_request (firstn n (direct_urls model))
    /\ (api = [] \/ api = [api_request (PInt 33) (PInt 231)])
    /\ (form = []
        \/ form = [form_page_request]
        \/ form = [form_page_request; form_post_request model hardware_version]
        \/ form = [form_page_request; form_post_request model hardware_version;
                   sitesearch_request model])
    /\ (api = [] -> form <> []).
Proof.
  destruct (search_firmware_run net model hardware_version tr)
    as (v1 & t1 & Hapi & H).
  assert (Ha : exists api,
             t1 = tr ++ api
             /\ (api = [] \/ api = [api_request (PInt 33) (PInt 231)])
             /\ (api = [] -> truthy v1 = false)).
  { destruct (in_model_mappings model hardware_version).
    - destruct (get_reolink_firmware_api_run net (PInt 33) (PInt 231) tr) as (w & Hw).
      rewrite Hw in Hapi. injection Hapi as <- <-.
      eexists. split; [reflexivity|]. split; [right; reflexivity | discriminate].
    - destruct Hapi as [-> ->]. exists []. rewrite app_nil_r. auto. }
  destruct Ha as (api & -> & Hshape & Hempty).
  destruct (truthy v1) eqn:Hv1.
  { exists api, [], O. simpl. rewrite app_nil_r.
    split; [exact (sent_by_app _ _ _ _ H)|]. split; [exact Hshape|].
    split; [auto|]. intros E. discriminate (Hempty E). }
  destruct H as (v2 & t2 & Hform & H).
  destruct (simulate_form_search_run net model hardware_version (tr ++ api))
    as (w2 & s & Hw2 & _ & Hs).
  rewrite Hw2 in Hform. injection Hform as <- <-.
  assert (Hfshape :
            form_page_request :: s = []
            \/ form_page_request :: s = [form_page_request]
            \/ form_page_request :: s
               = [form_page_request; form_post_request model hardware_version]
            \/ form_page_request :: s
               = [form_page_request; form_post_request model hardware_version;
                  sitesearch_request model])
    by (destruct Hs as [->|[->| ->]]; auto).
  destruct (truthy w2) eqn:Hv2.
  { exists api, (form_page_request :: s), O. simpl. rewrite app_nil_r.
    rewrite <- app_assoc in H.
    split; [exact (sent_by_app _ _ _ _ H)|]. split; [exact Hshape|].
    split; [exact Hfshape | discriminate]. }
  destruct H as (v3 & t3 & Hdirect & H).
  destruct (try_direct_download_page_run net model
              ((tr ++ api) ++ form_page_request :: s)) as (w3 & n & Hw3).
  rewrite Hw3 in Hdirect. injection Hdirect as <- <-.
  exists api, (form_page_request :: s), n.
  rewrite <- !app_assoc in H.
  split; [exact (sent_by_app _ _ _ _ H)|]. split; [exact Hshape|].
  split; [exact Hfshape | discriminate].
Qed.

(** X18.  One run of the resolver sends at least one and at most seven
    requests, at most one of them a POST, and every one of them goes to
    a URL under [https://reolink.com/]. *)
Theorem search_firmware_request_budget
  (net : network) (model hardware_version : string) (tr : trace) :
  let sent := sent_by (search_firmware net model hardware_version) tr in
  (1 <= List.length sent <= 7)%nat
  /\ (List.length (filter is_post sent) <= 1)%nat
  /\ Forall (fun r => String.prefix "https://reolink.com/" (req_url r) = true) sent.
Proof.
  intros sent.
  destruct (search_firmware_sent net model hardware_version tr)
    as (api & form & n & E & Ha & Hf & Hne).
  fold sent in E. rewrite E. clear E sent.
  assert (Hd : exists d,
             map direct_request (firstn n (direct_urls model)) = d
             /\ (List.length d <= 3)%nat
             /\ filter is_post d = []
             /\ Forall (fun r => String.prefix "https://reolink.com/" (req_url r)
                                 = true) d).
  { eexists. split; [reflexivity|]. unfold direct_urls.
    destruct n as [|[|[|n]]]; cbn [firstn map]; rewrite ?firstn_nil;
      cbn [map List.length];
      (split; [lia|]); (split; [reflexivity|]); repeat constructor. }
  destruct Hd as (d & -> & Hdlen & Hdpost & Hdurl).
  rewrite !filter_app, !length_app, Hdpost.
  split; [|split].
  - destruct Ha as [->| ->]; simpl.
    + destruct Hf as [->|[->|[->| ->]]]; simpl; try lia.
      exfalso. apply (Hne eq_refl). reflexivity.
    + destruct Hf as [->|[->|[->| ->]]]; simpl; lia.
  - destruct Ha as [->| ->]; destruct Hf as [->|[->|[->| ->]]]; simpl; lia.
  - apply Forall_app. split; [|apply Forall_app; split; [|exact Hdurl]].
    + destruct Ha as [->| ->]; repeat constructor.
    + destruct Hf as [->|[->|[->| ->]]]; repeat constructor.
Qed.

(** ** The command line *)

Ltac break_match :=
  match goal with
  | |- context [match ?x with _ => _ end] => destruct x eqn:?
  | |- context [if ?x then _ else _] => destruct x eqn:?
  end.

Lemma main_with_flag_trace (net : network) {Version : Type}
  (version_parse : string -> option Version)
  (version_compare : Version -> Version -> comparison)
  device_config program arg args stdin tr :
  snd (main net version_parse version_compare device_config
            (program :: arg :: args) stdin tr) = tr.
Proof.
  unfold main. repeat break_match; reflexivity.
Qed.

(** X19.  Only the automatic check talks to the network.  A run with any
    command-line argument sends no request, and so does a run whose
    configuration lacks the model, the hardware version or the current
    version, or has one of them empty: that run exits with status 1
    whatever the arguments.  With a complete configuration [--config]
    exits 0, [--update-version] exits 0 when a version follows it and 1
    when none does, and an unknown argument exits 1. *)
Theorem other_commands_leave_the_network_alone
  (net : network) {Version : Type}
  (version_parse : string -> option Version)
  (version_compare : Version -> Version -> comparison)
  (device_config : list (string * string))
  (program arg : string) (args stdin : list string) (tr : trace) :
  let run := main net version_parse version_compare device_config in
  let complete :=
    present (lookup "model" device_config)
    && present (lookup "hardware_version" device_config)
    && present (lookup "current_firmware_version" device_config) in
  snd (run (program :: arg :: args) stdin tr) = tr
  /\ (complete = false -> forall argv, run argv stdin tr = (Exit 1, tr))
  /\ (complete = true ->
      (arg = "--config" -> run (program :: arg :: args) stdin tr = (Exit 0, tr))
      /\ (arg = "--update-version" ->
          run (program :: arg :: args) stdin tr
          = (Exit (match args with [] => 1 | _ :: _ => 0 end), tr))
      /\ (arg <> "--manual" -> arg <> "--config" -> arg <> "--update-version" ->
          run (program :: arg :: args) stdin tr = (Exit 1, tr))).
Proof.
  intros run complete. split; [apply main_with_flag_trace|]. split.
  - intros Hc argv. unfold run, main. fold complete. rewrite Hc. reflexivity.
  - intros Hc.
    assert (Hvals : exists m h c,
               lookup "model" device_config = Some m
               /\ lookup "hardware_version" device_config = Some h
               /\ lookup "current_firmware_version" device_config = Some c).
    { unfold complete in Hc.
      apply andb_true_iff in Hc as [Hc H3]. apply andb_true_iff in Hc as [H1 H2].
      destruct (lookup "model" device_config) as [m|]; [|discriminate].
      destruct (lookup "hardware_version" device_config) as [h|]; [|discriminate].
      destruct (lookup "current_firmware_version" device_config) as [c|];
        [|discriminate].
      exists m, h, c. auto. }
    destruct Hvals as (m & h & c & Hm & Hh & Hcur).
    assert (Hrun : run (program :: arg :: args) stdin tr
                   = (if String.eqb arg "--manual" then
                        match manual_check stdin with
                        | (Raise e, _) => (Traceback e, tr)
                        | (Ok latest_version, stdin') =>
                            if truthy latest_version then
                              let '(has_update, _) :=
                                compare_versions version_parse version_compare
                                                 c latest_version in
                              if (has_update : bool) then
                                match stdin' with
                                | [] => (Traceback EOFError, tr)
                                | _ :: _ => (Exit 1, tr)
                                end
                              else (Exit 0, tr)
                            else (Exit 0, tr)
                        end
                      else if String.eqb arg "--config" then (Exit 0, tr)
                      else if String.eqb arg "--update-version" then
                        match args with
                        | _ :: _ => (Exit 0, tr)
                        | [] => (Exit 1, tr)
                        end
                      else (Exit 1, tr))).
    { unfold run, main. fold complete. rewrite Hc. simpl.
      rewrite Hm, Hh, Hcur. reflexivity. }
    rewrite Hrun. split; [|split].
    + intros ->. reflexivity.
    + intros ->. simpl. destruct args; reflexivity.
    + intros H1 H2 H3.
      apply String.eqb_neq in H1, H2, H3. rewrite H1, H2, H3. reflexivity.
Qed.

Lemma other_commands_leave_the_network_alone_witness :
  main offline Packaging.version_parse Packaging.version_compare
       [ ("model", "RLN8-410"); ("hardware_version", "") ]
       [ "reolink_firmware_check.py" ] [] []
  = (Exit 1, [])
  /\ main offline Packaging.version_parse Packaging.version_compare
          [ ("model", "RLN8-410"); ("hardware_version", "N2MB02");
            ("current_firmware_version", "v3.5.1.368_25010326") ]
          [ "reolink_firmware_check.py"; "--update-version" ] [] []
     = (Exit 1, []).
Proof.
  split.
  - destruct (other_commands_leave_the_network_alone offline
                Packaging.version_parse Packaging.version_compare
                [ ("model", "RLN8-410"); ("hardware_version", "") ]
                "reolink_firmware_check.py" "" [] [] [])
      as (_ & Hincomplete & _).
    apply Hincomplete. reflexivity.
  - destruct (other_commands_leave_the_network_alone offline
                Packaging.version_parse Packaging.version_compare
                [ ("model", "RLN8-410"); ("hardware_version", "N2MB02");
                  ("current_firmware_version", "v3.5.1.368_25010326") ]
                "reolink_firmware_check.py" "--update-version" [] [] [])
      as (_ & _ & Hcomplete).
    destruct (Hcomplete eq_refl) as (_ & Hupdate & _).
    apply Hupdate. reflexivity.
Defined.

Lemma non_empty_truthy s : truthy (PStr s) = true -> s <> "".
Proof. intros H ->. discriminate. Qed.






(** ** The configuration store *)

Lemma dict_get_set_same k v d : dict_get k (Config.dict_set k v d) = Some v.
Proof.
  induction d as [|[k' v'] d IH]; simpl.
  - rewrite String.eqb_refl. reflexivity.
  - destruct (String.eqb k k') eqn:E; simpl.
    + rewrite String.eqb_refl. reflexivity.
    + rewrite E. exact IH.
Qed.

Lemma dict_get_set_other k k' v d :
  k' <> k -> dict_get k' (Config.dict_set k v d) = dict_get k' d.
Proof.
  intros Hne. apply String.eqb_neq in Hne.
  induction d as [|[k0 v0] d IH]; simpl.
  - rewrite Hne. reflexivity.
  - destruct (String.eqb k k0) eqn:E; simpl.
    + apply String.eqb_eq in E. subst k0. rewrite Hne. reflexivity.
    + rewrite IH. reflexivity.
Qed.

Lemma update_firmware_version_inv w new_version s s' :
  Config.update_firmware_version w new_version s = Ok s' ->
  exists old,
    Config.get_device_config (Config.config s) = PDict old
    /\ Config.config s'
       = Config.dict_set "device"
           (PDict (Config.dict_set "current_firmware_version" (PStr new_version) old))
           (match dict_get "device" (Config.config s) with
            | Some _ => Config.config s
            | None => Config.dict_set "device" (PDict []) (Config.config s)
            end)
    /\ Config.config_file s'
       = Config._save_config w (Config.config s') (Config.config_file s).
Proof.
  unfold Config.update_firmware_version, Config.get_device_config.
  destruct (dict_get "device" (Config.config s)) as [device|] eqn:Hd; simpl.
  - rewrite Hd. simpl.
    destruct device as [| | | | |old]; simpl; try discriminate.
    intros [= <-]. exists old. auto.
  - rewrite dict_get_set_same. simpl. intros [= <-]. exists []. auto.
Qed.

(** X22.  After [update_firmware_version] has returned, the device table
    holds the new version under [current_firmware_version] and every
    other entry of the table as it was; every other table of the
    configuration, the settings among them, is untouched; and when the
    write succeeds the file holds exactly the configuration in memory. *)
Theorem update_firmware_version_round_trip
  (w : Config.write_outcome) (new_version : string) (s s' : Config.store) :
  Config.update_firmware_version w new_version s = Ok s' ->
  (exists old device,
      Config.get_device_config (Config.config s) = PDict old
      /\ Config.get_device_config (Config.config s') = PDict device
      /\ dict_get "current_firmware_version" device = Some (PStr new_version)
      /\ forall k, k <> "current_firmware_version" ->
                   dict_get k device = dict_get k old)
  /\ (forall table, table <> "device" ->
                    dict_get table (Config.config s')
                    = dict_get table (Config.config s))
  /\ (forall key default,
        Config.get_setting (Config.config s') key default
        = Config.get_setting (Config.config s) key default)
  /\ (w = Config.Written ->
      Config.config_file s' = Config.Document (Config.config s')).
Proof.
  intros H. destruct (update_firmware_version_inv _ _ _ _ H) as (old & Hold & Hc & Hf).
  assert (Hframe : forall table, table <> "device" ->
                     dict_get table (Config.config s')
                     = dict_get table (Config.config s)).
  { intros table Hne. rewrite Hc, dict_get_set_other by exact Hne.
    destruct (dict_get "device" (Config.config s)); [reflexivity|].
    apply dict_get_set_other. exact Hne. }
  split; [|split; [exact Hframe|split]].
  - exists old. eexists. split; [exact Hold|].
    split; [unfold Config.get_device_config; rewrite Hc, dict_get_set_same;
            reflexivity|].
    split; [apply dict_get_set_same|].
    intros k Hk. apply dict_get_set_other. exact Hk.
  - intros key default. unfold Config.get_setting.
    rewrite (Hframe "settings"); [reflexivity | discriminate].
  - intros ->. rewrite Hf. reflexivity.
Qed.

Lemma update_firmware_version_round_trip_witness :
  exists old device,
    Config.get_device_config Config._get_default_config = PDict old
    /\ Config.get_device_config
         (Config.dict_set "device"
            (Config.device_table "RLN8-410" "N2MB02" "v3.5.1.368_25010327")
            Config._get_default_config)
       = PDict device
    /\ dict_get "current_firmware_version" device
       = Some (PStr "v3.5.1.368_25010327")
    /\ forall k, k <> "current_firmware_version" ->
                 dict_get k device = dict_get k old.
Proof.
  destruct (update_firmware_version_round_trip Config.Written
              "v3.5.1.368_25010327"
              {| Config.config := Config._get_default_config;
                 Config.config_file := Config.Unreadable |}
              {| Config.config :=
                   Config.dict_set "device"
                     (Config.device_table "RLN8-410" "N2MB02" "v3.5.1.368_25010327")
                     Config._get_default_config;
                 Config.config_file :=
                   Config.Document
                     (Config.dict_set "device"
                        (Config.device_table "RLN8-410" "N2MB02"
                                             "v3.5.1.368_25010327")
                        Config._get_default_config) |})
    as [Hdevice _].
  - reflexivity.
  - exact Hdevice.
Defined.

(** X23.  [update_firmware_version] creates the device table when the
    configuration has none, and raises [TypeError], changing and writing
    nothing, when [device] is there but is not a table. *)
Theorem update_firmware_version_needs_a_table
  (w : Config.write_outcome) (new_version : string) (s : Config.store) :
  match dict_get "device" (Config.config s) with
  | None =>
      exists s',
        Config.update_firmware_version w new_version s = Ok s'
        /\ Config.get_device_config (Config.config s')
           = PDict [ ("current_firmware_version", PStr new_version) ]
  | Some (PDict _) =>
      exists s', Config.update_firmware_version w new_version s = Ok s'
  | Some _ => Config.update_firmware_version w new_version s = Raise TypeError
  end.
Proof.
  unfold Config.update_firmware_version, Config.get_device_config.
  destruct (dict_get "device" (Config.config s)) as [device|] eqn:Hd; simpl.
  - rewrite Hd. destruct device; simpl; try reflexivity. eauto.
  - rewrite dict_get_set_same. simpl. eexists. split; [reflexivity|].
    simpl. rewrite dict_get_set_same. reflexivity.
Qed.

(** X24.  [update_device_info] replaces the device table as a whole by
    the three values given, so that an entry the table had beside them
    is lost, and leaves every other table as it was; when the write
    succeeds the file holds the configuration in memory. *)
Theorem update_device_info_replaces_the_table
  (w : Config.write_outcome) (model hardware_version firmware_version : string)
  (s : Config.store) :
  let s' := Config.update_device_info w model hardware_version firmware_version s in
  Config.get_device_config (Config.config s')
  = Config.device_table model hardware_version firmware_version
  /\ (forall table, table <> "device" ->
                    dict_get table (Config.config s')
                    = dict_get table (Config.config s))
  /\ (w = Config.Written ->
      Config.config_file s' = Config.Document (Config.config s')).
Proof.
  intros s'. split; [|split].
  - unfold Config.get_device_config. simpl. rewrite dict_get_set_same. reflexivity.
  - intros table Hne. simpl. apply dict_get_set_other. exact Hne.
  - intros ->. reflexivity.
Qed.

Lemma answer_or_non_empty default line :
  default <> "" -> Config.answer_or default line <> "".
Proof.
  intros Hd. unfold Config.answer_or.
  destruct (truthy (PStr (Str.strip line))) eqn:H; [|exact Hd].
  apply non_empty_truthy. exact H.
Qed.

Lemma complete_device_table m h c :
  m <> "" -> h <> "" -> c <> "" ->
  complete (device_strings (Config.device_table m h c)) = true.
Proof.
  intros Hm Hh Hc. unfold complete. simpl.
  apply String.eqb_neq in Hm. apply String.eqb_neq in Hh.
  apply String.eqb_neq in Hc. rewrite Hm, Hh, Hc. reflexivity.
Qed.

Lemma interactive_setup_rows w f l1 l2 l3 rest :
  exists s,
    Config._interactive_setup w (l1 :: l2 :: l3 :: rest) f = (Ok s, rest)
    /\ complete (device_strings (Config.get_device_config (Config.config s)))
       = true.
Proof.
  eexists. split; [reflexivity|].
  cbn [Config.config]. unfold Config.get_device_config.
  cbn [dict_get String.eqb Ascii.eqb Bool.eqb].
  apply complete_device_table; apply answer_or_non_empty; discriminate.
Qed.

(** X25.  The first-run set-up reads three lines and always produces a
    device table that [main] accepts as complete: each answer is
    stripped of surrounding blanks, and a blank answer is replaced by
    the default ([RLN8-410], [N2MB02], [v3.5.1.368_25010326]).  With
    fewer than three lines it ends in [EOFError]. *)
Theorem interactive_setup_is_complete
  (w : Config.write_outcome) (f : Config.file) (stdin : list string) :
  match stdin with
  | l1 :: l2 :: l3 :: rest =>
      exists s m h c,
        Config._interactive_setup w stdin f = (Ok s, rest)
        /\ Config.get_device_config (Config.config s) = Config.device_table m h c
        /\ m = (if String.eqb (Str.strip l1) "" then "RLN8-410" else Str.strip l1)
        /\ h = (if String.eqb (Str.strip l2) "" then "N2MB02" else Str.strip l2)
        /\ c = (if String.eqb (Str.strip l3) "" then "v3.5.1.368_25010326"
                else Str.strip l3)
        /\ complete (device_strings (Config.get_device_config (Config.config s)))
           = true
  | _ => Config._interactive_setup w stdin f = (Raise EOFError, [])
  end.
Proof.
  destruct stdin as [|l1 [|l2 [|l3 rest]]]; try reflexivity.
  eexists. exists (Config.answer_or Config.defaults_model l1),
    (Config.answer_or Config.defaults_hardware l2),
    (Config.answer_or Config.defaults_version l3).
  split; [reflexivity|]. split; [reflexivity|].
  split; [unfold Config.answer_or; simpl;
          destruct (String.eqb (Str.strip l1) ""); reflexivity|].
  split; [unfold Config.answer_or; simpl;
          destruct (String.eqb (Str.strip l2) ""); reflexivity|].
  split; [unfold Config.answer_or; simpl;
          destruct (String.eqb (Str.strip l3) ""); reflexivity|].
  cbn [Config.config]. unfold Config.get_device_config.
  cbn [dict_get String.eqb Ascii.eqb Bool.eqb].
  apply complete_device_table; apply answer_or_non_empty; discriminate.
Qed.

(** X26.  Loading the configuration asks nothing when the file exists: a
    readable file is taken as it is, whatever it holds; an unreadable
    one is replaced in memory by the defaults while the file is left as
    it was.  Without a readable file, and with three lines to read when
    the file is missing, the configuration loaded is one that [main]
    accepts as complete. *)
Theorem load_configuration
  (w : Config.write_outcome) (stdin : list string) (f : Config.file) :
  (forall doc, f = Config.Document doc ->
               Config.load w stdin f
               = (Ok {| Config.config := doc; Config.config_file := f |}, stdin))
  /\ (f = Config.Unreadable ->
      Config.load w stdin f
      = (Ok {| Config.config := Config._get_default_config;
               Config.config_file := Config.Unreadable |}, stdin))
  /\ ((forall doc, f <> Config.Document doc) ->
      (3 <= List.length stdin)%nat ->
      exists s rest,
        Config.load w stdin f = (Ok s, rest)
        /\ complete (device_strings (Config.get_device_config (Config.config s)))
           = true).
Proof.
  split; [intros doc ->; reflexivity|]. split; [intros ->; reflexivity|].
  intros Hf Hlen. destruct f as [| |doc].
  - destruct stdin as [|l1 [|l2 [|l3 rest]]]; simpl in Hlen; try lia.
    pose proof (interactive_setup_rows w Config.Absent l1 l2 l3 rest) as H.
    destruct H as (s & Hrun & Hc). exists s, rest. split; [exact Hrun | exact Hc].
  - eexists. eexists. split; [reflexivity|]. reflexivity.
  - exfalso. apply (Hf doc). reflexivity.
Qed.

Lemma load_configuration_witness :
  exists s rest,
    Config.load Config.Written [ ""; " n2mb02 "; "" ] Config.Absent = (Ok s, rest)
    /\ complete (device_strings (Config.get_device_config (Config.config s)))
       = true.
Proof.
  destruct (load_configuration Config.Written [ ""; " n2mb02 "; "" ] Config.Absent)
    as (_ & _ & H).
  apply H.
  - intros doc. discriminate.
  - simpl. lia.
Defined.

(** ** From the API's answer to the verdict *)



